(** * Signing pipeline of the AGW client: [signTransaction]

    A shallow embedding of the two [signTransaction] actions of the
    agw-client package (the configurable one, with validation hooks, and
    the one restricted to the test network), and the properties of the
    composed signature, the chain binding and the error paths.

    JavaScript objects are finite maps from property names to values;
    the asynchronous capabilities (RPC reads, the signer) answer from a
    [World], and every call that leaves the function is recorded in a
    trace, in program order. *)

From Stdlib Require Import ZArith Ascii String.
From stdpp Require Import gmap strings list fin_maps sorting.

Set Warnings "-register-all".
Open Scope string_scope.
Open Scope list_scope.
Open Scope Z_scope.

(** ** Values and objects *)

Definition Hex := string.
Definition Address := string.

Inductive JsValue : Type :=
| JUndefined
| JNull
| JBool (b : bool)
| JString (s : string)
| JNumber (n : Z)
| JBigInt (n : Z)
| JArray (items : list JsValue)
| JObject (fields : list (string * JsValue)).

(** A plain object: own enumerable properties. *)
Abbreviation Obj := (gmap string JsValue).

(** [{ ...target, ...source }]: properties of [source] win. *)
Definition spread (target source : Obj) : Obj := source ∪ target.

(** ** Errors *)

Inductive Error : Type :=
| AccountNotFoundError (docsPath : string)
| BaseError (shortMessage : string)
| ChainNotFoundError
| ChainMismatchError (chainId currentChainId : Z)
| TypeError (message : string)
| CollaboratorError (name : string).

Inductive Result (A : Type) : Type :=
| Ok (a : A)
| Err (e : Error).
Arguments Ok {A} a.
Arguments Err {A} e.

(** ** Accounts, chains, clients *)

Record Account : Type := { address : Address; account_type : string }.

Inductive AccountOrAddress : Type :=
| OfAddress (a : Address)
| OfAccount (acc : Account).

(** viem's [parseAccount]: a bare address becomes a json-rpc account. *)
Definition parseAccount (account : AccountOrAddress) : Account :=
  match account with
  | OfAddress a => {| address := a; account_type := "json-rpc" |}
  | OfAccount acc => acc
  end.

Record Signature : Type := { r : Hex; s : Hex; v : Z }.

(** [chain.custom?.getEip712Domain] and [chain.serializers?.transaction]
    are optional members; [None] stands for a missing member at either
    level of the optional chain. *)
Record ChainEIP712 : Type := {
  id : Z;
  custom_getEip712Domain : option (Obj → Result Obj);
  serializers_transaction : option (Obj → Signature → Result Hex)
}.

Inductive Nullable (A : Type) : Type :=
| Undefined
| Null
| Value (a : A).
Arguments Undefined {A}.
Arguments Null {A}.
Arguments Value {A} a.

Record Client : Type := {
  client_account : option Account;
  client_chain : option ChainEIP712
}.

Record WalletClient : Type := { wallet_account : Account }.

(** The argument object: [account] and [chain] are taken out by the
    destructuring, [args_transaction] is the rest. *)
Record SignEip712TransactionParameters : Type := {
  args_account : Nullable AccountOrAddress;
  args_chain : Nullable ChainEIP712;
  args_transaction : Obj
}.

(** Arguments of [encodeAbiParameters]: a hex string or an array of them. *)
Inductive AbiArg : Type :=
| AHex (h : Hex)
| AArr (items : list Hex).

(** ** The world and the trace *)

Record World : Type := {
  rpc_getChainId : Result Z;
  rpc_readContract : Address → string → list JsValue → Result (list Address);
  signer_signTypedData : Obj → Account → Result Hex
}.

Inductive Event : Type :=
| EvGetChainId
| EvGetEip712Domain (tx : Obj)
| EvSignTypedData (typedData : Obj) (account : Account)
| EvReadContract (contract : Address) (functionName : string) (args : list JsValue)
| EvEncodeAbiParameters (params : list string) (values : list AbiArg)
| EvSerializeTransaction (tx : Obj) (signature : Signature).

(** ** The pipeline monad: reader of the world, writer of the trace,
    first error aborts. *)

Definition M (A : Type) : Type := World → Result A * list Event.

Definition ret {A} (a : A) : M A := λ _, (Ok a, []).

Definition throw {A} (e : Error) : M A := λ _, (Err e, []).

Definition bind {A B} (m : M A) (f : A → M B) : M B :=
  λ w, match m w with
       | (Ok a, t1) => let '(rb, t2) := f a w in (rb, t1 ++ t2)
       | (Err e, t1) => (Err e, t1)
       end.

Definition lift {A} (ra : Result A) : M A := λ _, (ra, []).

#[global] Instance M_ret : MRet M := @ret.
#[global] Instance M_bind : MBind M := λ A B f m, bind m f.

(** [await getAction(client, getChainId, 'getChainId')({})] *)
Definition getChainId : M Z :=
  λ w, (rpc_getChainId w, [EvGetChainId]).

(** [await getAction(client, readContract, 'readContract')({...})] *)
Definition readContract (contract : Address) (functionName : string)
    (args : list JsValue) : M (list Address) :=
  λ w, (rpc_readContract w contract functionName args,
        [EvReadContract contract functionName args]).

(** [await signTypedData(signerClient, { ...typedData, account })] *)
Definition signTypedData (typedData : Obj) (account : Account) : M Hex :=
  λ w, (signer_signTypedData w typedData account,
        [EvSignTypedData typedData account]).

(** Synchronous calls into the chain binding and the encoder. *)
Definition callGetEip712Domain (f : Obj → Result Obj) (tx : Obj) : M Obj :=
  λ _, (f tx, [EvGetEip712Domain tx]).

Definition callSerializer (f : Obj → Signature → Result Hex)
    (tx : Obj) (sig : Signature) : M Hex :=
  λ _, (f tx sig, [EvSerializeTransaction tx sig]).

Definition callEncodeAbiParameters
    (f : list string → list AbiArg → Result Hex)
    (params : list string) (values : list AbiArg) : M Hex :=
  λ _, (f params values, [EvEncodeAbiParameters params values]).

(** viem's [assertCurrentChain].

    Modelled from the spec: the helper belongs to viem/utils; section 4.1
    gives its effect (a chain-mismatch error when the live chain id
    disagrees with the declared chain). *)
Definition assertCurrentChain (currentChainId : Z)
    (chain : Nullable ChainEIP712) : Result unit :=
  match chain with
  | Value c =>
      if decide (currentChainId = id c) then Ok tt
      else Err (ChainMismatchError (id c) currentChainId)
  | _ => Err ChainNotFoundError
  end.

(** JavaScript truthiness of the resolved account ([!account_]). *)
Definition account_truthy (a : Nullable AccountOrAddress) : option AccountOrAddress :=
  match a with
  | Value (OfAddress "") => None
  | Value acc => Some acc
  | _ => None
  end.

(** [x = dflt] in a destructuring pattern: the default applies to
    [undefined] only, [null] goes through. *)
Definition with_default {A} (x : Nullable A) (dflt : option A) : Nullable A :=
  match x with
  | Undefined => match dflt with Some a => Value a | None => Undefined end
  | _ => x
  end.

Definition zero_signature : Signature := {| r := "0x0"; s := "0x0"; v := 0 |}.

(** The hook loop: [for (const hook of validationHooks)
    hookData.push(validationHookData[hook] ?? '0x')]. *)
Definition collectHookData (validationHookData : gmap string Hex)
    (validationHooks : list Address) : list Hex :=
  foldl (λ hookData hook,
           hookData ++ [default "0x" (validationHookData !! hook)])
        [] validationHooks.

(** ** Object literals shared by both actions *)

(** The object given to [getEip712Domain]:
    [{ ...transaction, chainId, from: fromAccount.address, type: 'eip712' }]. *)
Definition domainRequest (transaction : Obj) (chainId : Z)
    (fromAccount : Account) : Obj :=
  <["type" := JString "eip712"]>
    (<["from" := JString (address fromAccount)]>
       (<["chainId" := JNumber chainId]> transaction)).

(** The object given to the serializer:
    [{ chainId, ...transaction, from: fromAccount.address,
       customSignature: signature, type: 'eip712' }]. *)
Definition serializerRequest (transaction : Obj) (chainId : Z)
    (fromAccount : Account) (signature : Hex) : Obj :=
  <["type" := JString "eip712"]>
    (<["customSignature" := JString signature]>
       (<["from" := JString (address fromAccount)]>
          (spread {["chainId" := JNumber chainId]} transaction))).

(** [parseAbiParameters(['bytes', 'address', 'bytes[]'])] *)
Definition abi_params : list string := ["bytes"; "address"; "bytes[]"].

(** ** The configurable action (first module of the source) *)

Module Configurable.

Section SignTransaction.

(** Members of this repository that the action imports from
    [../utils.js] and [../eip712.js], and viem's encoder; their sources
    are not part of the verified files, so they are parameters here.
    [transformHexValues] rewrites its argument in place and may throw
    (a listed field that is no number); it is given as the object it
    leaves behind, or the error. *)
Variable VALID_CHAINS : gmap Z ChainEIP712.
Variable transformHexValues : Obj → list string → Result Obj.
Variable assertEip712Request :
  Account → Nullable ChainEIP712 → Obj → Result unit.
Variable encodeAbiParameters : list string → list AbiArg → Result Hex.

(** The key list of the entry block, as written (with [value] twice). *)
Definition numeric_keys : list string :=
  ["value"; "nonce"; "maxFeePerGas"; "maxPriorityFeePerGas"; "gas";
   "value"; "chainId"; "gasPerPubdata"].

(** [transaction] after the entry block (lines 46-57). *)
Definition normalize (transaction : Obj) : Result Obj :=
  transformHexValues (<["type" := JString "eip712"]> transaction)
                     numeric_keys.

(** [signTransaction] (lines 29-137). *)
Definition signTransaction (client : Client) (signerClient : WalletClient)
    (args : SignEip712TransactionParameters) (validator : Address)
    (useSignerAddress : bool) (validationHookData : gmap string Hex)
    : M Hex :=
  (* lines 41-45 *)
  let account_ :=
    with_default (args_account args) (OfAccount <$> client_account client) in
  let chain := with_default (args_chain args) (client_chain client) in
  (* lines 46-57 *)
  transaction ← lift (normalize (args_transaction args)) ;
  (* lines 59-64 *)
  match account_truthy account_ with
  | None =>
      throw (AccountNotFoundError "/docs/actions/wallet/signTransaction")
  | Some account_ =>
    let smartAccount := parseAccount account_ in
    let fromAccount :=
      if useSignerAddress then wallet_account signerClient
      else smartAccount in
    (* lines 66-70 *)
    lift (assertEip712Request smartAccount chain transaction) ;;
    (* lines 72-79 *)
    match chain with
    | Value c =>
      if decide (VALID_CHAINS !! id c = None)
      then throw (BaseError "Invalid chain specified")
      else
      match custom_getEip712Domain c with
      | None => throw (BaseError "`getEip712Domain` not found on chain.")
      | Some getEip712Domain =>
        match serializers_transaction c with
        | None =>
            throw (BaseError "transaction serializer not found on chain.")
        | Some serializer =>
          (* lines 81-86 *)
          chainId ← getChainId ;
          match chain with
          | Null => ret tt
          | _ => lift (assertCurrentChain chainId chain)
          end ;;
          (* lines 88-98 *)
          eip712Domain ← callGetEip712Domain getEip712Domain
                            (domainRequest transaction chainId fromAccount) ;
          rawSignature ← signTypedData eip712Domain
                            (wallet_account signerClient) ;
          (* lines 100-125 *)
          signature ←
            (if useSignerAddress then ret rawSignature
             else
               hookData ←
                 (if negb useSignerAddress then
                    match client_account client with
                    | None =>
                        throw (TypeError
                          "Cannot read properties of undefined (reading 'address')")
                    | Some clientAccount =>
                      validationHooks ← readContract (address clientAccount)
                                          "listHooks" [JBool true] ;
                      ret (collectHookData validationHookData validationHooks)
                    end
                  else ret []) ;
               callEncodeAbiParameters encodeAbiParameters abi_params
                 [AHex rawSignature; AHex validator; AArr hookData]) ;
          (* lines 127-136 *)
          callSerializer serializer
            (serializerRequest transaction chainId fromAccount signature)
            zero_signature
        end
      end
    | _ => throw (BaseError "Invalid chain specified")
    end
  end.

(** *** One call, and the points at which it can end

    The pipeline is linear: Validate, BuildDomain, Sign, [ResolveHooks],
    Compose, Serialize.  [Outcome] lists every point at which a call can
    end, with the result and the trace up to that point. *)

Section Run.

Variables (client : Client) (signerClient : WalletClient)
          (args : SignEip712TransactionParameters) (validator : Address)
          (useSignerAddress : bool) (validationHookData : gmap string Hex)
          (w : World).

Definition run : Result Hex * list Event :=
  signTransaction client signerClient args validator useSignerAddress
    validationHookData w.

Definition account_ : Nullable AccountOrAddress :=
  with_default (args_account args) (OfAccount <$> client_account client).

Definition chain : Nullable ChainEIP712 :=
  with_default (args_chain args) (client_chain client).

Definition fromAccount (smartAccount : Account) : Account :=
  if useSignerAddress then wallet_account signerClient else smartAccount.

Definition signer : Account := wallet_account signerClient.

(** Every check of the Validate step before the live read passed. *)
Record Validated (transaction : Obj) (acc : AccountOrAddress)
    (c : ChainEIP712) (getEip712Domain : Obj → Result Obj)
    (serializer : Obj → Signature → Result Hex) : Prop := {
  v_normalized : normalize (args_transaction args) = Ok transaction;
  v_account : account_truthy account_ = Some acc;
  v_request : assertEip712Request (parseAccount acc) chain transaction = Ok tt;
  v_chain : chain = Value c;
  v_supported : VALID_CHAINS !! id c ≠ None;
  v_domain : custom_getEip712Domain c = Some getEip712Domain;
  v_serializer : serializers_transaction c = Some serializer
}.

(** Traces, by the step reached. *)
Definition trace_domain (transaction : Obj) (acc : AccountOrAddress)
    (chainId : Z) : list Event :=
  [EvGetChainId;
   EvGetEip712Domain
     (domainRequest transaction chainId (fromAccount (parseAccount acc)))].

Definition trace_sign (transaction : Obj) (acc : AccountOrAddress)
    (chainId : Z) (eip712Domain : Obj) : list Event :=
  trace_domain transaction acc chainId ++ [EvSignTypedData eip712Domain signer].

Definition trace_hooks (transaction : Obj) (acc : AccountOrAddress)
    (chainId : Z) (eip712Domain : Obj) (clientAccount : Account)
    : list Event :=
  trace_sign transaction acc chainId eip712Domain ++
  [EvReadContract (address clientAccount) "listHooks" [JBool true]].

Definition trace_compose (transaction : Obj) (acc : AccountOrAddress)
    (chainId : Z) (eip712Domain : Obj) (clientAccount : Account)
    (rawSignature : Hex) (hookData : list Hex) : list Event :=
  trace_hooks transaction acc chainId eip712Domain clientAccount ++
  [EvEncodeAbiParameters abi_params
     [AHex rawSignature; AHex validator; AArr hookData]].

Definition serialize_event (transaction : Obj) (acc : AccountOrAddress)
    (chainId : Z) (signature : Hex) : Event :=
  EvSerializeTransaction
    (serializerRequest transaction chainId (fromAccount (parseAccount acc))
       signature)
    zero_signature.

Inductive Outcome : Result Hex → list Event → Prop :=
| NormalizeFailed e :
    normalize (args_transaction args) = Err e →
    Outcome (Err e) []
| AccountMissing t :
    normalize (args_transaction args) = Ok t →
    account_truthy account_ = None →
    Outcome (Err (AccountNotFoundError "/docs/actions/wallet/signTransaction")) []
| RequestRejected t acc e :
    normalize (args_transaction args) = Ok t →
    account_truthy account_ = Some acc →
    assertEip712Request (parseAccount acc) chain t = Err e →
    Outcome (Err e) []
| ChainUndeclared t acc :
    normalize (args_transaction args) = Ok t →
    account_truthy account_ = Some acc →
    assertEip712Request (parseAccount acc) chain t = Ok tt →
    (chain = Undefined ∨ chain = Null) →
    Outcome (Err (BaseError "Invalid chain specified")) []
| ChainUnsupported t acc c :
    normalize (args_transaction args) = Ok t →
    account_truthy account_ = Some acc →
    assertEip712Request (parseAccount acc) chain t = Ok tt →
    chain = Value c →
    VALID_CHAINS !! id c = None →
    Outcome (Err (BaseError "Invalid chain specified")) []
| DomainFunctionMissing t acc c :
    normalize (args_transaction args) = Ok t →
    account_truthy account_ = Some acc →
    assertEip712Request (parseAccount acc) chain t = Ok tt →
    chain = Value c →
    VALID_CHAINS !! id c ≠ None →
    custom_getEip712Domain c = None →
    Outcome (Err (BaseError "`getEip712Domain` not found on chain.")) []
| SerializerMissing t acc c getEip712Domain :
    normalize (args_transaction args) = Ok t →
    account_truthy account_ = Some acc →
    assertEip712Request (parseAccount acc) chain t = Ok tt →
    chain = Value c →
    VALID_CHAINS !! id c ≠ None →
    custom_getEip712Domain c = Some getEip712Domain →
    serializers_transaction c = None →
    Outcome (Err (BaseError "transaction serializer not found on chain.")) []
| ChainReadFailed t acc c g ser e :
    Validated t acc c g ser →
    rpc_getChainId w = Err e →
    Outcome (Err e) [EvGetChainId]
| ChainMismatch t acc c g ser chainId :
    Validated t acc c g ser →
    rpc_getChainId w = Ok chainId →
    chainId ≠ id c →
    Outcome (Err (ChainMismatchError (id c) chainId)) [EvGetChainId]
| DomainFailed t acc c g ser e :
    Validated t acc c g ser →
    rpc_getChainId w = Ok (id c) →
    g (domainRequest t (id c) (fromAccount (parseAccount acc))) = Err e →
    Outcome (Err e) (trace_domain t acc (id c))
| SignerFailed t acc c g ser eip712Domain e :
    Validated t acc c g ser →
    rpc_getChainId w = Ok (id c) →
    g (domainRequest t (id c) (fromAccount (parseAccount acc)))
      = Ok eip712Domain →
    signer_signTypedData w eip712Domain signer = Err e →
    Outcome (Err e) (trace_sign t acc (id c) eip712Domain)
| Direct t acc c g ser eip712Domain rawSignature :
    Validated t acc c g ser →
    rpc_getChainId w = Ok (id c) →
    g (domainRequest t (id c) (fromAccount (parseAccount acc)))
      = Ok eip712Domain →
    signer_signTypedData w eip712Domain signer = Ok rawSignature →
    useSignerAddress = true →
    Outcome
      (ser (serializerRequest t (id c)
              (fromAccount (parseAccount acc)) rawSignature) zero_signature)
      (trace_sign t acc (id c) eip712Domain ++
       [serialize_event t acc (id c) rawSignature])
| ClientAccountMissing t acc c g ser eip712Domain rawSignature :
    Validated t acc c g ser →
    rpc_getChainId w = Ok (id c) →
    g (domainRequest t (id c) (fromAccount (parseAccount acc)))
      = Ok eip712Domain →
    signer_signTypedData w eip712Domain signer = Ok rawSignature →
    useSignerAddress = false →
    client_account client = None →
    Outcome
      (Err (TypeError "Cannot read properties of undefined (reading 'address')"))
      (trace_sign t acc (id c) eip712Domain)
| HookReadFailed t acc c g ser eip712Domain rawSignature clientAccount e :
    Validated t acc c g ser →
    rpc_getChainId w = Ok (id c) →
    g (domainRequest t (id c) (fromAccount (parseAccount acc)))
      = Ok eip712Domain →
    signer_signTypedData w eip712Domain signer = Ok rawSignature →
    useSignerAddress = false →
    client_account client = Some clientAccount →
    rpc_readContract w (address clientAccount) "listHooks" [JBool true] = Err e →
    Outcome (Err e) (trace_hooks t acc (id c) eip712Domain clientAccount)
| EncodingFailed t acc c g ser eip712Domain rawSignature clientAccount
    validationHooks e :
    Validated t acc c g ser →
    rpc_getChainId w = Ok (id c) →
    g (domainRequest t (id c) (fromAccount (parseAccount acc)))
      = Ok eip712Domain →
    signer_signTypedData w eip712Domain signer = Ok rawSignature →
    useSignerAddress = false →
    client_account client = Some clientAccount →
    rpc_readContract w (address clientAccount) "listHooks" [JBool true]
      = Ok validationHooks →
    encodeAbiParameters abi_params
      [AHex rawSignature; AHex validator;
       AArr (collectHookData validationHookData validationHooks)] = Err e →
    Outcome (Err e)
      (trace_compose t acc (id c) eip712Domain clientAccount rawSignature
         (collectHookData validationHookData validationHooks))
| Delegated t acc c g ser eip712Domain rawSignature clientAccount
    validationHooks signature :
    Validated t acc c g ser →
    rpc_getChainId w = Ok (id c) →
    g (domainRequest t (id c) (fromAccount (parseAccount acc)))
      = Ok eip712Domain →
    signer_signTypedData w eip712Domain signer = Ok rawSignature →
    useSignerAddress = false →
    client_account client = Some clientAccount →
    rpc_readContract w (address clientAccount) "listHooks" [JBool true]
      = Ok validationHooks →
    encodeAbiParameters abi_params
      [AHex rawSignature; AHex validator;
       AArr (collectHookData validationHookData validationHooks)]
      = Ok signature →
    Outcome
      (ser (serializerRequest t (id c)
              (fromAccount (parseAccount acc)) signature) zero_signature)
      (trace_compose t acc (id c) eip712Domain clientAccount rawSignature
         (collectHookData validationHookData validationHooks) ++
       [serialize_event t acc (id c) signature]).

End Run.

End SignTransaction.

End Configurable.

(** ** The action restricted to the test network (second module of the
    source) *)

(** JavaScript truthiness of a property read ([None] is a missing
    property, which reads as [undefined]). *)
Definition js_truthy (v : option JsValue) : bool :=
  match v with
  | None | Some JUndefined | Some JNull => false
  | Some (JBool b) => b
  | Some (JString str) => negb (bool_decide (str = ""))
  | Some (JNumber n) | Some (JBigInt n) => negb (bool_decide (n = 0))
  | Some (JArray _) | Some (JObject _) => true
  end.

Module Restricted.

(** [abstractTestnet.id] of viem/chains. *)
Definition abstractTestnet_id : Z := 11124.

Definition ALLOWED_CHAINS : list Z := [abstractTestnet_id].

Section SignTransaction.

(** The built-in [BigInt] conversion, the request assertion of
    [../eip712.js] and viem's encoder. *)
Variable BigInt : JsValue → Result Z.
Variable assertEip712Request :
  Account → Nullable ChainEIP712 → Obj → Result unit.
Variable encodeAbiParameters : list string → list AbiArg → Result Hex.

(** [transaction] after the entry block (lines 181-185). *)
Definition normalize (transaction : Obj) : Result Obj :=
  let transaction := <["type" := JString "eip712"]> transaction in
  if js_truthy (transaction !! "value") then
    match BigInt (default JUndefined (transaction !! "value")) with
    | Ok n => Ok (<["value" := JBigInt n]> transaction)
    | Err e => Err e
    end
  else Ok (<["value" := JBigInt 0]> transaction).

(** [signTransaction] of the second module (lines 165-249). *)
Definition signTransaction (client : Client) (signerClient : WalletClient)
    (args : SignEip712TransactionParameters) (validatorAddress : Hex)
    (useSignerAddress : bool) : M Hex :=
  (* lines 176-180 *)
  let account_ :=
    with_default (args_account args) (OfAccount <$> client_account client) in
  let chain := with_default (args_chain args) (client_chain client) in
  (* lines 181-185 *)
  transaction ← lift (normalize (args_transaction args)) ;
  (* lines 187-192 *)
  match account_truthy account_ with
  | None =>
      throw (AccountNotFoundError "/docs/actions/wallet/signTransaction")
  | Some account_ =>
    let smartAccount := parseAccount account_ in
    let fromAccount :=
      if useSignerAddress then wallet_account signerClient
      else smartAccount in
    (* lines 194-198 *)
    lift (assertEip712Request smartAccount chain transaction) ;;
    (* lines 200-207 *)
    match chain with
    | Value c =>
      if negb (bool_decide (id c ∈ ALLOWED_CHAINS))
      then throw (BaseError "Invalid chain specified")
      else
      match custom_getEip712Domain c with
      | None => throw (BaseError "`getEip712Domain` not found on chain.")
      | Some getEip712Domain =>
        match serializers_transaction c with
        | None =>
            throw (BaseError "transaction serializer not found on chain.")
        | Some serializer =>
          (* lines 209-214 *)
          chainId ← getChainId ;
          match chain with
          | Null => ret tt
          | _ => lift (assertCurrentChain chainId chain)
          end ;;
          (* lines 216-226 *)
          eip712Domain ← callGetEip712Domain getEip712Domain
                            (domainRequest transaction chainId fromAccount) ;
          rawSignature ← signTypedData eip712Domain
                            (wallet_account signerClient) ;
          (* lines 228-237 *)
          signature ←
            (if useSignerAddress then ret rawSignature
             else
               callEncodeAbiParameters encodeAbiParameters abi_params
                 [AHex rawSignature; AHex validatorAddress; AArr []]) ;
          (* lines 239-248 *)
          callSerializer serializer
            (serializerRequest transaction chainId fromAccount signature)
            zero_signature
        end
      end
    | _ => throw (BaseError "Invalid chain specified")
    end
  end.

(** *** One call, and the points at which it can end *)

Section Run.

Variables (client : Client) (signerClient : WalletClient)
          (args : SignEip712TransactionParameters) (validatorAddress : Hex)
          (useSignerAddress : bool) (w : World).

Definition run : Result Hex * list Event :=
  signTransaction client signerClient args validatorAddress useSignerAddress w.

Definition account_ : Nullable AccountOrAddress :=
  with_default (args_account args) (OfAccount <$> client_account client).

Definition chain : Nullable ChainEIP712 :=
  with_default (args_chain args) (client_chain client).

Definition fromAccount (smartAccount : Account) : Account :=
  if useSignerAddress then wallet_account signerClient else smartAccount.

Definition signer : Account := wallet_account signerClient.

(** Every check of the Validate step before the live read passed. *)
Record Validated (transaction : Obj) (acc : AccountOrAddress)
    (c : ChainEIP712) (getEip712Domain : Obj → Result Obj)
    (serializer : Obj → Signature → Result Hex) : Prop := {
  v_normalized : normalize (args_transaction args) = Ok transaction;
  v_account : account_truthy account_ = Some acc;
  v_request : assertEip712Request (parseAccount acc) chain transaction = Ok tt;
  v_chain : chain = Value c;
  v_allowed : id c ∈ ALLOWED_CHAINS;
  v_domain : custom_getEip712Domain c = Some getEip712Domain;
  v_serializer : serializers_transaction c = Some serializer
}.

Definition trace_domain (transaction : Obj) (acc : AccountOrAddress)
    (chainId : Z) : list Event :=
  [EvGetChainId;
   EvGetEip712Domain
     (domainRequest transaction chainId (fromAccount (parseAccount acc)))].

Definition trace_sign (transaction : Obj) (acc : AccountOrAddress)
    (chainId : Z) (eip712Domain : Obj) : list Event :=
  trace_domain transaction acc chainId ++ [EvSignTypedData eip712Domain signer].

Definition trace_compose (transaction : Obj) (acc : AccountOrAddress)
    (chainId : Z) (eip712Domain : Obj) (rawSignature : Hex) : list Event :=
  trace_sign transaction acc chainId eip712Domain ++
  [EvEncodeAbiParameters abi_params
     [AHex rawSignature; AHex validatorAddress; AArr []]].

Definition serialize_event (transaction : Obj) (acc : AccountOrAddress)
    (chainId : Z) (signature : Hex) : Event :=
  EvSerializeTransaction
    (serializerRequest transaction chainId (fromAccount (parseAccount acc))
       signature)
    zero_signature.

Inductive Outcome : Result Hex → list Event → Prop :=
| NormalizeFailed e :
    normalize (args_transaction args) = Err e →
    Outcome (Err e) []
| AccountMissing t :
    normalize (args_transaction args) = Ok t →
    account_truthy account_ = None →
    Outcome (Err (AccountNotFoundError "/docs/actions/wallet/signTransaction")) []
| RequestRejected t acc e :
    normalize (args_transaction args) = Ok t →
    account_truthy account_ = Some acc →
    assertEip712Request (parseAccount acc) chain t = Err e →
    Outcome (Err e) []
| ChainUndeclared t acc :
    normalize (args_transaction args) = Ok t →
    account_truthy account_ = Some acc →
    assertEip712Request (parseAccount acc) chain t = Ok tt →
    (chain = Undefined ∨ chain = Null) →
    Outcome (Err (BaseError "Invalid chain specified")) []
| ChainNotAllowed t acc c :
    normalize (args_transaction args) = Ok t →
    account_truthy account_ = Some acc →
    assertEip712Request (parseAccount acc) chain t = Ok tt →
    chain = Value c →
    id c ∉ ALLOWED_CHAINS →
    Outcome (Err (BaseError "Invalid chain specified")) []
| DomainFunctionMissing t acc c :
    normalize (args_transaction args) = Ok t →
    account_truthy account_ = Some acc →
    assertEip712Request (parseAccount acc) chain t = Ok tt →
    chain = Value c →
    id c ∈ ALLOWED_CHAINS →
    custom_getEip712Domain c = None →
    Outcome (Err (BaseError "`getEip712Domain` not found on chain.")) []
| SerializerMissing t acc c getEip712Domain :
    normalize (args_transaction args) = Ok t →
    account_truthy account_ = Some acc →
    assertEip712Request (parseAccount acc) chain t = Ok tt →
    chain = Value c →
    id c ∈ ALLOWED_CHAINS →
    custom_getEip712Domain c = Some getEip712Domain →
    serializers_transaction c = None →
    Outcome (Err (BaseError "transaction serializer not found on chain.")) []
| ChainReadFailed t acc c g ser e :
    Validated t acc c g ser →
    rpc_getChainId w = Err e →
    Outcome (Err e) [EvGetChainId]
| ChainMismatch t acc c g ser chainId :
    Validated t acc c g ser →
    rpc_getChainId w = Ok chainId →
    chainId ≠ id c →
    Outcome (Err (ChainMismatchError (id c) chainId)) [EvGetChainId]
| DomainFailed t acc c g ser e :
    Validated t acc c g ser →
    rpc_getChainId w = Ok (id c) →
    g (domainRequest t (id c) (fromAccount (parseAccount acc))) = Err e →
    Outcome (Err e) (trace_domain t acc (id c))
| SignerFailed t acc c g ser eip712Domain e :
    Validated t acc c g ser →
    rpc_getChainId w = Ok (id c) →
    g (domainRequest t (id c) (fromAccount (parseAccount acc)))
      = Ok eip712Domain →
    signer_signTypedData w eip712Domain signer = Err e →
    Outcome (Err e) (trace_sign t acc (id c) eip712Domain)
| Direct t acc c g ser eip712Domain rawSignature :
    Validated t acc c g ser →
    rpc_getChainId w = Ok (id c) →
    g (domainRequest t (id c) (fromAccount (parseAccount acc)))
      = Ok eip712Domain →
    signer_signTypedData w eip712Domain signer = Ok rawSignature →
    useSignerAddress = true →
    Outcome
      (ser (serializerRequest t (id c) (fromAccount (parseAccount acc))
              rawSignature) zero_signature)
      (trace_sign t acc (id c) eip712Domain ++
       [serialize_event t acc (id c) rawSignature])
| EncodingFailed t acc c g ser eip712Domain rawSignature e :
    Validated t acc c g ser →
    rpc_getChainId w = Ok (id c) →
    g (domainRequest t (id c) (fromAccount (parseAccount acc)))
      = Ok eip712Domain →
    signer_signTypedData w eip712Domain signer = Ok rawSignature →
    useSignerAddress = false →
    encodeAbiParameters abi_params
      [AHex rawSignature; AHex validatorAddress; AArr []] = Err e →
    Outcome (Err e) (trace_compose t acc (id c) eip712Domain rawSignature)
| Delegated t acc c g ser eip712Domain rawSignature signature :
    Validated t acc c g ser →
    rpc_getChainId w = Ok (id c) →
    g (domainRequest t (id c) (fromAccount (parseAccount acc)))
      = Ok eip712Domain →
    signer_signTypedData w eip712Domain signer = Ok rawSignature →
    useSignerAddress = false →
    encodeAbiParameters abi_params
      [AHex rawSignature; AHex validatorAddress; AArr []] = Ok signature →
    Outcome
      (ser (serializerRequest t (id c) (fromAccount (parseAccount acc))
              signature) zero_signature)
      (trace_compose t acc (id c) eip712Domain rawSignature ++
       [serialize_event t acc (id c) signature]).

End Run.

End SignTransaction.

End Restricted.

(** ** A concrete environment

    Implementations of the collaborators, on which the pipeline runs by
    computation: hex parsing, the numeric normalization, standard ABI
    encoding of [(bytes, address, bytes[])], a chain binding for the test
    network and a world that answers the reads. *)

Module Sample.

Definition lower_digits : list ascii :=
  ["0"; "1"; "2"; "3"; "4"; "5"; "6"; "7"; "8"; "9"; "a"; "b"; "c"; "d";
   "e"; "f"]%char.

Definition upper_letters : list ascii := ["A"; "B"; "C"; "D"; "E"; "F"]%char.

(** The position of a character in an alphabet, counted from [i]. *)
Fixpoint position (c : ascii) (alphabet : list ascii) (i : Z) : option Z :=
  match alphabet with
  | [] => None
  | a :: rest => if Ascii.eqb c a then Some i else position c rest (i + 1)
  end.

Definition hex_value (c : ascii) : option Z :=
  match position c lower_digits 0 with
  | Some d => Some d
  | None => position c upper_letters 10
  end.

Fixpoint digits_value (acc : Z) (digits : string) : option Z :=
  match digits with
  | EmptyString => Some acc
  | String c rest =>
      match hex_value c with
      | Some d => digits_value (16 * acc + d) rest
      | None => None
      end
  end.

Definition strip_0x (h : Hex) : option string :=
  match h with
  | String "0" (String "x" digits) => Some digits
  | _ => None
  end.

(** [fromHex(h, 'bigint')] on a hex string with at least one digit;
    [None] when [h] is not one. *)
Definition fromHex (h : Hex) : option Z :=
  match strip_0x h with
  | Some EmptyString | None => None
  | Some digits => digits_value 0 digits
  end.

(** Modelled from the spec: [transformHexValues] of [../utils.js] is not
    among the sources; section 3 says the numeric fields are coerced to
    an integer type once.  A hex string under a listed key becomes a
    bigint; ['0x'], a hex string without a digit, makes the conversion
    throw a [SyntaxError]; anything else stays. *)
Definition transformHexValue (transaction : Obj) (key : string) : Result Obj :=
  match transaction !! key with
  | Some (JString h) =>
      match strip_0x h with
      | Some EmptyString => Err (CollaboratorError "SyntaxError")
      | Some digits =>
          match digits_value 0 digits with
          | Some n => Ok (<[key := JBigInt n]> transaction)
          | None => Ok transaction
          end
      | None => Ok transaction
      end
  | _ => Ok transaction
  end.

Definition transformHexValues (transaction : Obj) (keys : list string)
    : Result Obj :=
  foldl (λ sofar key,
           match sofar with
           | Ok tx => transformHexValue tx key
           | Err e => Err e
           end)
        (Ok transaction) keys.

(** The request after the entry block of the configurable action, when
    the entry block returns. *)
Definition normalized (transaction : Obj) : Obj :=
  match Configurable.normalize transformHexValues transaction with
  | Ok tx => tx
  | Err _ => ∅
  end.

(** [BigInt(v)] on the values a request carries. *)
Definition BigInt (v : JsValue) : Result Z :=
  match v with
  | JBigInt n | JNumber n => Ok n
  | JBool b => Ok (if b then 1 else 0)
  | JString h =>
      match fromHex h with
      | Some n => Ok n
      | None => Err (CollaboratorError "SyntaxError")
      end
  | _ => Err (TypeError "Cannot convert to a BigInt")
  end.

(** Modelled from the spec: [assertEip712Request] of [../eip712.js] is
    not among the sources and the spec states no condition for it; this
    instance accepts every request. *)
Definition assertEip712Request (_ : Account) (_ : Nullable ChainEIP712)
    (_ : Obj) : Result unit := Ok tt.

(** *** Standard ABI encoding, on hex digits *)

Definition hex_digit (d : Z) : string :=
  String (nth (Z.to_nat d) lower_digits "f"%char) "".

(** [n] on exactly [width] hex digits, most significant first. *)
Fixpoint fixed_hex (width : nat) (n : Z) : string :=
  match width with
  | O => ""
  | S k => fixed_hex k (n / 16) +:+ hex_digit (n mod 16)
  end.

(** One 32-byte word. *)
Definition word (n : Z) : string := fixed_hex 64 n.

Fixpoint zeros (n : nat) : string :=
  match n with
  | O => ""
  | S k => String "0" (zeros k)
  end.

Fixpoint all_hex (digits : string) : bool :=
  match digits with
  | EmptyString => true
  | String c rest =>
      match hex_value c with Some _ => all_hex rest | None => false end
  end.

(** The digits of a byte string: [0x], then an even number of hex digits. *)
Definition bytes_digits (h : Hex) : option string :=
  match strip_0x h with
  | Some digits =>
      if all_hex digits && Nat.even (String.length digits)
      then Some digits else None
  | None => None
  end.

Definition address_digits (a : Address) : option string :=
  match bytes_digits a with
  | Some digits =>
      if Nat.eqb (String.length digits) 40 then Some digits else None
  | None => None
  end.

Fixpoint all_bytes_digits (items : list Hex) : option (list string) :=
  match items with
  | [] => Some []
  | h :: rest =>
      match bytes_digits h, all_bytes_digits rest with
      | Some d, Some ds => Some (d :: ds)
      | _, _ => None
      end
  end.

(** Zero padding on the right, up to a whole number of words. *)
Definition pad_right (digits : string) : string :=
  digits +:+ zeros ((64 - String.length digits mod 64) mod 64).

(** A [bytes] value: its length in bytes, then the padded data. *)
Definition encode_bytes (digits : string) : string :=
  word (Z.of_nat (String.length digits / 2)) +:+ pad_right digits.

(** The offsets of the elements of a dynamic array. *)
Fixpoint offsets (start : Z) (encodings : list string) : string :=
  match encodings with
  | [] => ""
  | e :: rest =>
      word start +:+ offsets (start + Z.of_nat (String.length e / 2)) rest
  end.

Fixpoint concat_strings (l : list string) : string :=
  match l with
  | [] => ""
  | x :: rest => x +:+ concat_strings rest
  end.

(** A [bytes[]] value: the count, the offsets, the elements. *)
Definition encode_bytes_array (items : list string) : string :=
  let encodings := map encode_bytes items in
  word (Z.of_nat (length items)) +:+
  offsets (32 * Z.of_nat (length items)) encodings +:+
  concat_strings encodings.

Definition encodeAbiParameters (params : list string)
    (values : list AbiArg) : Result Hex :=
  match params, values with
  | ["bytes"; "address"; "bytes[]"], [AHex sig; AHex addr; AArr items] =>
      match bytes_digits sig, address_digits addr, all_bytes_digits items with
      | Some sig_digits, Some addr_digits, Some item_digits =>
          let sig_encoding := encode_bytes sig_digits in
          Ok ("0x" +:+ word 96 +:+ zeros 24 +:+ addr_digits +:+
              word (96 + Z.of_nat (String.length sig_encoding / 2)) +:+
              sig_encoding +:+ encode_bytes_array item_digits)
      | _, _, _ => Err (CollaboratorError "AbiEncodingError")
      end
  | _, _ => Err (CollaboratorError "AbiEncodingLengthMismatchError")
  end.

(** *** A chain binding, clients and a world *)

Definition getEip712Domain (tx : Obj) : Result Obj :=
  Ok {[ "domain" :=
          JObject [("name", JString "zkSync"); ("version", JString "2");
                   ("chainId", default JUndefined (tx !! "chainId"))];
        "primaryType" := JString "Transaction";
        "message" :=
          JObject [("txType", JBigInt 113);
                   ("from", default JUndefined (tx !! "from"));
                   ("to", default JUndefined (tx !! "to"));
                   ("value", default JUndefined (tx !! "value"))] ]}.

(** A serializer that returns the custom signature of the transaction. *)
Definition serializeTransaction (tx : Obj) (_ : Signature) : Result Hex :=
  match tx !! "customSignature" with
  | Some (JString sig) => Ok sig
  | _ => Err (CollaboratorError "SerializationError")
  end.

(** A serializer that ignores the transaction. *)
Definition constant_serializer (_ : Obj) (_ : Signature) : Result Hex :=
  Ok "0x71".

Definition abstractTestnet : ChainEIP712 :=
  {| id := 11124;
     custom_getEip712Domain := Some getEip712Domain;
     serializers_transaction := Some serializeTransaction |}.

(** Modelled from the spec: [VALID_CHAINS] of [../utils.js] is not among
    the sources; the registry of supported chains, keyed by chain id,
    here with the test network. *)
Definition VALID_CHAINS : gmap Z ChainEIP712 :=
  {[ 11124 := abstractTestnet ]}.

Definition smartAccount : Account :=
  {| address := "0x1111111111111111111111111111111111111111";
     account_type := "json-rpc" |}.

Definition sessionSigner : Account :=
  {| address := "0x2222222222222222222222222222222222222222";
     account_type := "local" |}.

Definition validator : Address :=
  "0xabcdabcdabcdabcdabcdabcdabcdabcdabcdabcd".

Definition hookA : Address := "0xaaaaaaaaaaaaaaaaaaaaaaaaaaaaaaaaaaaaaaaa".
Definition hookB : Address := "0xbbbbbbbbbbbbbbbbbbbbbbbbbbbbbbbbbbbbbbbb".

Definition rawSignature : Hex :=
  "0x" +:+ concat_strings (replicate 65 "5a").

Definition client : Client :=
  {| client_account := Some smartAccount;
     client_chain := Some abstractTestnet |}.

Definition signerClient : WalletClient :=
  {| wallet_account := sessionSigner |}.

Definition recipient : Address :=
  "0x3333333333333333333333333333333333333333".

(** A transfer with a hex-string value and no chain id of its own. *)
Definition transfer : Obj :=
  {[ "to" := JString recipient; "value" := JString "0x2a";
     "data" := JString "0x" ]}.

Definition args (transaction : Obj) : SignEip712TransactionParameters :=
  {| args_account := Undefined; args_chain := Undefined;
     args_transaction := transaction |}.

(** The same transfer, carrying a chain id of its own. *)
Definition transfer_with_chain_id : Obj :=
  <["chainId" := JNumber 1]> transfer.

(** The same transfer, carrying a custom signature of its own. *)
Definition transfer_with_custom_signature : Obj :=
  <["customSignature" := JString "0xdead"]> transfer.

(** A client with neither account nor chain. *)
Definition bare_client : Client :=
  {| client_account := None; client_chain := None |}.

(** A client with an account and no chain. *)
Definition chainless_client : Client :=
  {| client_account := Some smartAccount; client_chain := None |}.

(** Chain objects with the test network's id and fewer capabilities. *)
Definition chain_without_capabilities : ChainEIP712 :=
  {| id := 11124;
     custom_getEip712Domain := None;
     serializers_transaction := None |}.

Definition chain_without_serializer : ChainEIP712 :=
  {| id := 11124;
     custom_getEip712Domain := Some getEip712Domain;
     serializers_transaction := None |}.

Definition chain_with_constant_serializer : ChainEIP712 :=
  {| id := 11124;
     custom_getEip712Domain := Some getEip712Domain;
     serializers_transaction := Some constant_serializer |}.

Definition args_on (c : ChainEIP712) (transaction : Obj)
    : SignEip712TransactionParameters :=
  {| args_account := Undefined; args_chain := Value c;
     args_transaction := transaction |}.

Definition hookPayloads : gmap string Hex := {[ hookA := "0x1234" ]}.

(** The composed signature for the hook list [hookA; hookB]. *)
Definition delegated_signature : Hex :=
  "0x" +:+ word 96 +:+ zeros 24 +:+
  "abcdabcdabcdabcdabcdabcdabcdabcdabcdabcd" +:+ word 224 +:+
  word 65 +:+ concat_strings (replicate 65 "5a") +:+ zeros 62 +:+
  word 2 +:+ word 64 +:+ word 128 +:+
  word 2 +:+ "1234" +:+ zeros 60 +:+
  word 0.

Definition world (liveChainId : Z) (hooks : list Address) : World :=
  {| rpc_getChainId := Ok liveChainId;
     rpc_readContract := λ _ _ _, Ok hooks;
     signer_signTypedData := λ _ _, Ok rawSignature |}.

(** The composed signature for an empty hook list. *)
Definition hookless_signature : Hex :=
  "0x" +:+ word 96 +:+ zeros 24 +:+
  "abcdabcdabcdabcdabcdabcdabcdabcdabcdabcd" +:+ word 224 +:+
  word 65 +:+ concat_strings (replicate 65 "5a") +:+ zeros 62 +:+
  word 0.

(** The requests the serializer receives for [transfer], in delegated
    mode with the hook list [hookA; hookB], and in direct mode. *)
Definition delegated_request : Obj :=
  serializerRequest (normalized transfer) 11124 smartAccount delegated_signature.

Definition direct_request : Obj :=
  serializerRequest (normalized transfer) 11124 sessionSigner rawSignature.

(** For [transfer_with_chain_id]: the object from which the domain is
    derived, and the object the serializer receives. *)
Definition signed_request_with_chain_id : Obj :=
  domainRequest (normalized transfer_with_chain_id) 11124 smartAccount.

Definition serialized_request_with_chain_id : Obj :=
  serializerRequest (normalized transfer_with_chain_id) 11124 smartAccount delegated_signature.

(** For [transfer_with_custom_signature], in direct mode: the object the
    serializer receives. *)
Definition serialized_request_with_custom_signature : Obj :=
  serializerRequest (normalized transfer_with_custom_signature) 11124 sessionSigner rawSignature.

Definition configurable (c : Client) (a : SignEip712TransactionParameters)
    (useSignerAddress : bool) (w : World) : Result Hex * list Event :=
  Configurable.run VALID_CHAINS transformHexValues assertEip712Request
    encodeAbiParameters c signerClient a validator useSignerAddress
    hookPayloads w.

Definition restricted (c : Client) (a : SignEip712TransactionParameters)
    (useSignerAddress : bool) (w : World) : Result Hex * list Event :=
  Restricted.run BigInt assertEip712Request encodeAbiParameters c
    signerClient a validator useSignerAddress w.

End Sample.

(** ** The pipeline steps *)

(** The place of a call in the pipeline of either action. *)
Definition event_step (e : Event) : nat :=
  match e with
  | EvGetChainId => 0
  | EvGetEip712Domain _ => 1
  | EvSignTypedData _ _ => 2
  | EvReadContract _ _ _ => 3
  | EvEncodeAbiParameters _ _ => 4
  | EvSerializeTransaction _ _ => 5
  end.

(** ** Proof automation *)

(** Membership in a trace written out as a list. *)
Ltac trace_cases H :=
  unfold Configurable.trace_compose, Configurable.trace_hooks,
    Configurable.trace_sign, Configurable.trace_domain,
    Configurable.serialize_event in H;
  repeat (rewrite ?elem_of_app, ?elem_of_cons, ?elem_of_nil in H);
  repeat match type of H with
         | _ ∨ _ => destruct H as [H|H]
         | False => destruct H
         | _ = _ => try discriminate H
         end.

Ltac trace_member :=
  unfold Configurable.trace_compose, Configurable.trace_hooks,
    Configurable.trace_sign, Configurable.trace_domain,
    Configurable.serialize_event;
  repeat (rewrite ?elem_of_app, ?elem_of_cons);
  tauto.

(** The same, for the traces of the restricted action. *)
Ltac restricted_trace_cases H :=
  unfold Restricted.trace_compose, Restricted.trace_sign,
    Restricted.trace_domain, Restricted.serialize_event in H;
  repeat (rewrite ?elem_of_app, ?elem_of_cons, ?elem_of_nil in H);
  repeat match type of H with
         | _ ∨ _ => destruct H as [H|H]
         | False => destruct H
         | _ = _ => try discriminate H
         end.

(** Membership in a trace obtained by computation. *)
Ltac in_computed_trace :=
  vm_compute;
  repeat first [apply list_elem_of_here | apply list_elem_of_further].

(** Case analysis on the innermost scrutinee of the goal; an answer that
    is already known is reused. *)
Ltac split_scrutinee :=
  match goal with
  | |- context [match ?x with _ => _ end] =>
      lazymatch x with
      | context [match _ with _ => _ end] => fail
      | context [collectHookData] => fail
      | _ =>
          lazymatch goal with
          | H : x = _ |- _ => rewrite H
          | _ => destruct x eqn:?
          end
      end
  end.

(** Two runs that take the same decisions are equal. *)
Ltac lockstep :=
  unfold Configurable.run, Configurable.signTransaction, Restricted.run,
    Restricted.signTransaction, mbind, M_bind, bind, lift, throw, ret,
    getChainId, callGetEip712Domain, signTypedData, readContract,
    callEncodeAbiParameters, callSerializer, assertCurrentChain;
  repeat (cbv beta iota; first [reflexivity | split_scrutinee]).

(** * Properties *)

(** The hook loop, from any list of payloads already pushed. *)
Lemma hook_loop_from (validationHookData : gmap string Hex)
    (validationHooks : list Address) (pushed : list Hex) :
  foldl (λ hookData hook,
           hookData ++ [default "0x" (validationHookData !! hook)])
        pushed validationHooks =
  pushed ++ map (λ hook, default "0x" (validationHookData !! hook))
                validationHooks.
Proof.
  revert pushed.
  induction validationHooks as [|hook hooks IH]; intros pushed; simpl.
  - by rewrite app_nil_r.
  - rewrite IH. by rewrite <- app_assoc.
Qed.

(** The hook loop is a map over the live hook list. *)
Lemma collectHookData_map (validationHookData : gmap string Hex)
    (validationHooks : list Address) :
  collectHookData validationHookData validationHooks =
  map (λ hook, default "0x" (validationHookData !! hook)) validationHooks.
Proof. unfold collectHookData. by rewrite hook_loop_from. Qed.

Lemma collectHookData_length (validationHookData : gmap string Hex)
    (validationHooks : list Address) :
  length (collectHookData validationHookData validationHooks) =
  length validationHooks.
Proof. rewrite collectHookData_map. apply length_map. Qed.

Lemma collectHookData_lookup (validationHookData : gmap string Hex)
    (validationHooks : list Address) (i : nat) (hook : Address) :
  validationHooks !! i = Some hook →
  collectHookData validationHookData validationHooks !! i =
  Some (default "0x" (validationHookData !! hook)).
Proof.
  intros Hi. rewrite collectHookData_map.
  change (map ?f ?l) with (f <$> l).
  by rewrite list_lookup_fmap, Hi.
Qed.

(** *** Reading the object literals *)

Lemma spread_lookup (target source : Obj) (k : string) :
  spread target source !! k =
  match source !! k with Some x => Some x | None => target !! k end.
Proof.
  unfold spread. rewrite lookup_union.
  destruct (source !! k), (target !! k); reflexivity.
Qed.

Lemma domainRequest_chainId (transaction : Obj) (chainId : Z)
    (fromAccount : Account) :
  domainRequest transaction chainId fromAccount !! "chainId" =
  Some (JNumber chainId).
Proof. unfold domainRequest. by simplify_map_eq. Qed.

Lemma domainRequest_from (transaction : Obj) (chainId : Z)
    (fromAccount : Account) :
  domainRequest transaction chainId fromAccount !! "from" =
  Some (JString (address fromAccount)).
Proof. unfold domainRequest. by simplify_map_eq. Qed.

Lemma serializerRequest_customSignature (transaction : Obj) (chainId : Z)
    (fromAccount : Account) (signature : Hex) :
  serializerRequest transaction chainId fromAccount signature
    !! "customSignature" = Some (JString signature).
Proof. unfold serializerRequest. by simplify_map_eq. Qed.

Lemma serializerRequest_from (transaction : Obj) (chainId : Z)
    (fromAccount : Account) (signature : Hex) :
  serializerRequest transaction chainId fromAccount signature !! "from" =
  Some (JString (address fromAccount)).
Proof. unfold serializerRequest. by simplify_map_eq. Qed.

Lemma serializerRequest_chainId (transaction : Obj) (chainId : Z)
    (fromAccount : Account) (signature : Hex) :
  serializerRequest transaction chainId fromAccount signature !! "chainId" =
  match transaction !! "chainId" with
  | Some x => Some x
  | None => Some (JNumber chainId)
  end.
Proof.
  unfold serializerRequest.
  rewrite !lookup_insert_ne by done.
  rewrite spread_lookup. by rewrite lookup_singleton_eq.
Qed.

Lemma serializerRequest_other (transaction : Obj) (chainId : Z)
    (fromAccount : Account) (signature : Hex) (k : string) :
  k ∉ ["type"; "from"; "customSignature"; "chainId"] →
  serializerRequest transaction chainId fromAccount signature !! k =
  transaction !! k.
Proof.
  rewrite !not_elem_of_cons. intros (Ht & Hf & Hc & Hi & _).
  unfold serializerRequest.
  rewrite !lookup_insert_ne by congruence.
  rewrite spread_lookup, lookup_singleton_ne by congruence.
  by destruct (transaction !! k).
Qed.

Section ConfigurableProperties.

Variable VALID_CHAINS : gmap Z ChainEIP712.
Variable transformHexValues : Obj → list string → Result Obj.
Variable assertEip712Request :
  Account → Nullable ChainEIP712 → Obj → Result unit.
Variable encodeAbiParameters : list string → list AbiArg → Result Hex.

Variables (client : Client) (signerClient : WalletClient)
          (args : SignEip712TransactionParameters) (validator : Address)
          (useSignerAddress : bool) (validationHookData : gmap string Hex)
          (w : World).

Local Abbreviation run :=
  (Configurable.run VALID_CHAINS transformHexValues assertEip712Request
     encodeAbiParameters client signerClient args validator useSignerAddress
     validationHookData w).
Local Abbreviation Outcome :=
  (Configurable.Outcome VALID_CHAINS transformHexValues assertEip712Request
     encodeAbiParameters client signerClient args validator useSignerAddress
     validationHookData w).
Local Abbreviation account_ := (Configurable.account_ client args).
Local Abbreviation chain := (Configurable.chain client args).
Local Abbreviation normalized :=
  (Configurable.normalize transformHexValues (args_transaction args)).
Local Abbreviation fromAccount :=
  (Configurable.fromAccount signerClient useSignerAddress).
Local Abbreviation signer := (Configurable.signer signerClient).

(** Every call ends in one of the outcomes. *)
Lemma run_outcome : Outcome run.1 run.2.
Proof.
  unfold Configurable.run, Configurable.signTransaction.
  fold account_ chain.
  unfold mbind, M_bind, bind, lift, throw, ret, getChainId,
    callGetEip712Domain, signTypedData, readContract,
    callEncodeAbiParameters, callSerializer.
  destruct normalized as [t|e] eqn:Hnorm;
    [|by apply Configurable.NormalizeFailed].
  destruct (account_truthy account_) as [acc|] eqn:Hacc;
    [|by eapply Configurable.AccountMissing].
  fold (fromAccount (parseAccount acc)). fold signer.
  destruct (assertEip712Request _ _ _) as [[]|e] eqn:Hreq;
    [|by eapply Configurable.RequestRejected].
  destruct chain as [| |c] eqn:Hchain; rewrite <- Hchain in Hreq; cbn.
  1,2: by eapply Configurable.ChainUndeclared; eauto.
  destruct (decide (VALID_CHAINS !! id c = None)) as [Hv|Hv];
    [by eapply Configurable.ChainUnsupported|].
  destruct (custom_getEip712Domain c) as [g|] eqn:Hg;
    [|by eapply Configurable.DomainFunctionMissing].
  destruct (serializers_transaction c) as [ser|] eqn:Hser;
    [|by eapply Configurable.SerializerMissing].
  assert (Configurable.Validated VALID_CHAINS transformHexValues
            assertEip712Request client args t acc c g ser) as HV by done.
  destruct (rpc_getChainId w) as [chainId|e] eqn:Hid;
    [|by eapply Configurable.ChainReadFailed].
  cbn.
  destruct (decide (chainId = id c)) as [->|Hne];
    [|by eapply Configurable.ChainMismatch].
  destruct (g _) as [eip712Domain|e] eqn:Hdom;
    [|by eapply Configurable.DomainFailed].
  destruct (signer_signTypedData w _ _) as [rawSignature|e] eqn:Hsig;
    [|by eapply Configurable.SignerFailed].
  destruct useSignerAddress eqn:Hmode; cbn.
  { exact (Configurable.Direct VALID_CHAINS transformHexValues
             assertEip712Request encodeAbiParameters client signerClient args
             validator true validationHookData w t acc c g ser eip712Domain
             rawSignature HV Hid Hdom Hsig eq_refl). }
  destruct (client_account client) as [clientAccount|] eqn:Hcl.
  2: { exact (Configurable.ClientAccountMissing VALID_CHAINS
                transformHexValues assertEip712Request encodeAbiParameters
                client signerClient args validator false validationHookData w
                t acc c g ser eip712Domain rawSignature HV Hid Hdom Hsig
                eq_refl Hcl). }
  destruct (rpc_readContract w _ _ _) as [validationHooks|e] eqn:Hhooks.
  2: { exact (Configurable.HookReadFailed VALID_CHAINS transformHexValues
                assertEip712Request encodeAbiParameters client signerClient
                args validator false validationHookData w t acc c g ser
                eip712Domain rawSignature clientAccount e HV Hid Hdom Hsig
                eq_refl Hcl Hhooks). }
  destruct (encodeAbiParameters _ _) as [signature|e] eqn:Henc.
  - exact (Configurable.Delegated VALID_CHAINS transformHexValues
             assertEip712Request encodeAbiParameters client signerClient args
             validator false validationHookData w t acc c g ser eip712Domain
             rawSignature clientAccount validationHooks signature HV Hid Hdom
             Hsig eq_refl Hcl Hhooks Henc).
  - exact (Configurable.EncodingFailed VALID_CHAINS transformHexValues
             assertEip712Request encodeAbiParameters client signerClient args
             validator false validationHookData w t acc c g ser eip712Domain
             rawSignature clientAccount validationHooks e HV Hid Hdom Hsig
             eq_refl Hcl Hhooks Henc).
Qed.

(** C1. In every call, what the serializer receives as custom signature
    is the signer's raw signature itself when [useSignerAddress] is set,
    and otherwise the result of [encodeAbiParameters] on the parameter
    types [bytes, address, bytes[]] and the values (raw signature,
    validator, hook payload sequence), in that order. *)
Theorem signature_composition (tx : Obj) (sg : Signature) :
  EvSerializeTransaction tx sg ∈ run.2 →
  ∃ typedData rawSignature,
    EvSignTypedData typedData (wallet_account signerClient) ∈ run.2 ∧
    signer_signTypedData w typedData (wallet_account signerClient)
      = Ok rawSignature ∧
    if useSignerAddress
    then tx !! "customSignature" = Some (JString rawSignature)
    else ∃ clientAccount validationHooks encoded,
      client_account client = Some clientAccount ∧
      rpc_readContract w (address clientAccount) "listHooks" [JBool true]
        = Ok validationHooks ∧
      EvEncodeAbiParameters ["bytes"; "address"; "bytes[]"]
        [AHex rawSignature; AHex validator;
         AArr (collectHookData validationHookData validationHooks)] ∈ run.2 ∧
      encodeAbiParameters ["bytes"; "address"; "bytes[]"]
        [AHex rawSignature; AHex validator;
         AArr (collectHookData validationHookData validationHooks)]
        = Ok encoded ∧
      tx !! "customSignature" = Some (JString encoded).
Proof.
  intros Hin.
  destruct run_outcome as
    [ | | | | | | | | | |
    | t acc c g ser td raw HV Hid Hdom Hsig Hmode
    | | |
    | t acc c g ser td raw cl hooks sig HV Hid Hdom Hsig Hmode Hcl Hhooks
        Henc];
    trace_cases Hin; injection Hin as -> ->; exists td, raw; rewrite Hmode.
  - split_and!; [trace_member | done |].
    apply serializerRequest_customSignature.
  - split_and!; [trace_member | done |].
    exists cl, hooks, sig.
    split_and!; [done | done | trace_member | done |].
    apply serializerRequest_customSignature.
Qed.

(** C2. In delegated mode the hook payload sequence given to the encoder
    is parallel to the hook list returned by the [listHooks] read of the
    same call: same length, and at every position the caller's payload
    for that hook, or ['0x'] when the map has no entry.  A miss raises
    nothing: once the read has answered, the encoder is called. *)
Theorem hook_payload_sequence :
  useSignerAddress = false →
  (∀ params values,
     EvEncodeAbiParameters params values ∈ run.2 →
     ∃ clientAccount validationHooks rawSignature hookData,
       client_account client = Some clientAccount ∧
       EvReadContract (address clientAccount) "listHooks" [JBool true]
         ∈ run.2 ∧
       rpc_readContract w (address clientAccount) "listHooks" [JBool true]
         = Ok validationHooks ∧
       values = [AHex rawSignature; AHex validator; AArr hookData] ∧
       length hookData = length validationHooks ∧
       ∀ i hook, validationHooks !! i = Some hook →
         hookData !! i =
         Some (match validationHookData !! hook with
               | Some payload => payload
               | None => "0x"
               end)) ∧
  (∀ contract validationHooks,
     EvReadContract contract "listHooks" [JBool true] ∈ run.2 →
     rpc_readContract w contract "listHooks" [JBool true]
       = Ok validationHooks →
     ∃ rawSignature hookData,
       EvEncodeAbiParameters abi_params
         [AHex rawSignature; AHex validator; AArr hookData] ∈ run.2 ∧
       length hookData = length validationHooks).
Proof.
  intros Hdelegated. split.
  - intros params values Hin.
    destruct run_outcome as
      [ | | | | | | | | | | | | |
      | t acc c g ser td raw cl hooks e HV Hid Hdom Hsig Hmode Hcl Hhooks
          Henc
      | t acc c g ser td raw cl hooks sig HV Hid Hdom Hsig Hmode Hcl Hhooks
          Henc];
      trace_cases Hin; injection Hin as -> ->;
      exists cl, hooks, raw, (collectHookData validationHookData hooks);
      (split_and!;
       [ done | trace_member | done | done
       | apply collectHookData_length
       | intros i hook Hi;
         rewrite (collectHookData_lookup _ _ _ _ Hi);
         by destruct (validationHookData !! hook) ]).
  - intros contract hooks' Hin Hread.
    destruct run_outcome as
      [ | | | | | | | | | | | |
      | t acc c g ser td raw cl e HV Hid Hdom Hsig Hmode Hcl Hhooks
      | t acc c g ser td raw cl hooks e HV Hid Hdom Hsig Hmode Hcl Hhooks
          Henc
      | t acc c g ser td raw cl hooks sig HV Hid Hdom Hsig Hmode Hcl Hhooks
          Henc];
      trace_cases Hin; injection Hin as ->.
    + congruence.
    + exists raw, (collectHookData validationHookData hooks).
      split; [trace_member|].
      rewrite collectHookData_length. congruence.
    + exists raw, (collectHookData validationHookData hooks).
      split; [trace_member|].
      rewrite collectHookData_length. congruence.
Qed.

(** The chain id in the object given to [getEip712Domain] is the one the
    live read of the same call returned. *)
Lemma domain_chain_id_live (tx : Obj) :
  EvGetEip712Domain tx ∈ run.2 →
  ∃ live, rpc_getChainId w = Ok live ∧ tx !! "chainId" = Some (JNumber live).
Proof.
  intros Hin.
  destruct run_outcome; trace_cases Hin; injection Hin as ->;
    eexists; (split; [eassumption | apply domainRequest_chainId]).
Qed.

(** The serializer receives the request's own [chainId] when the request
    carries one, and the live chain id otherwise. *)
Lemma serializer_chain_id_source (tx : Obj) (sg : Signature) :
  EvSerializeTransaction tx sg ∈ run.2 →
  ∃ live transaction,
    rpc_getChainId w = Ok live ∧
    normalized = Ok transaction ∧
    tx !! "chainId" =
    match transaction !! "chainId" with
    | Some x => Some x
    | None => Some (JNumber live)
    end.
Proof.
  intros Hin.
  destruct run_outcome; trace_cases Hin; injection Hin as -> ->;
    match goal with
    | HV : Configurable.Validated _ _ _ _ _ _ _ _ _ _ |- _ =>
        destruct HV as [Hn _ _ _ _ _ _]
    end;
    do 2 eexists;
    (split_and!; [eassumption | exact Hn | apply serializerRequest_chainId]).
Qed.

(** C4. When the chain id returned by the live read differs from the
    declared chain's id, the call ends with the chain-mismatch error
    right after that read, and the signer is not called. *)
Theorem chain_mismatch_short_circuits (c : ChainEIP712) (live : Z) :
  chain = Value c →
  EvGetChainId ∈ run.2 →
  rpc_getChainId w = Ok live →
  live ≠ id c →
  run.1 = Err (ChainMismatchError (id c) live) ∧
  run.2 = [EvGetChainId] ∧
  ∀ typedData account, EvSignTypedData typedData account ∉ run.2.
Proof.
  intros Hchain Hfetched Hlive Hne.
  destruct run_outcome;
    try (by apply elem_of_nil in Hfetched);
    match goal with
    | HV : Configurable.Validated _ _ _ _ _ _ _ _ _ _ |- _ =>
        destruct HV as [_ _ _ Hc _ _ _]
    end;
    rewrite Hchain in Hc; injection Hc as <-;
    try congruence.
  replace chainId with live by congruence.
  split_and!; [done..|].
  intros typedData account Hin. trace_cases Hin.
Qed.

(** C7. In every successful call the serializer is called once, last,
    with the composed signature in the [customSignature] field and with
    the placeholders [r = '0x0'], [s = '0x0'], [v = 0]; the result of
    the call is what the serializer returned. *)
Theorem custom_signature_field (out : Hex) :
  run.1 = Ok out →
  ∃ c serializer tx signature,
    chain = Value c ∧
    serializers_transaction c = Some serializer ∧
    last run.2 =
      Some (EvSerializeTransaction tx {| r := "0x0"; s := "0x0"; v := 0 |}) ∧
    (∀ tx' sg', EvSerializeTransaction tx' sg' ∈ run.2 →
       tx' = tx ∧ sg' = {| r := "0x0"; s := "0x0"; v := 0 |}) ∧
    serializer tx {| r := "0x0"; s := "0x0"; v := 0 |} = Ok out ∧
    tx !! "customSignature" = Some (JString signature) ∧
    ∃ typedData rawSignature,
      signer_signTypedData w typedData (wallet_account signerClient)
        = Ok rawSignature ∧
      if useSignerAddress then signature = rawSignature
      else ∃ hookData,
        encodeAbiParameters abi_params
          [AHex rawSignature; AHex validator; AArr hookData] = Ok signature.
Proof.
  intros Hok.
  destruct run_outcome as
    [ | | | | | | | | | |
    | t acc c g ser td raw HV Hid Hdom Hsig Hmode
    | | |
    | t acc c g ser td raw cl hooks sig HV Hid Hdom Hsig Hmode Hcl Hhooks
        Henc];
    try discriminate Hok; destruct HV as [_ _ _ Hc _ _ Hs].
  - exists c, ser,
      (serializerRequest t (id c) (fromAccount (parseAccount acc)) raw), raw.
    split_and!; [done | done | by rewrite last_snoc | | done | | ].
    + intros tx' sg' Hin. trace_cases Hin. by injection Hin as -> ->.
    + apply serializerRequest_customSignature.
    + exists td, raw. by rewrite Hmode.
  - exists c, ser,
      (serializerRequest t (id c) (fromAccount (parseAccount acc)) sig), sig.
    split_and!; [done | done | by rewrite last_snoc | | done | | ].
    + intros tx' sg' Hin. trace_cases Hin. by injection Hin as -> ->.
    + apply serializerRequest_customSignature.
    + exists td, raw. rewrite Hmode. split; [done|]. by eexists.
Qed.

(** C8. The [from] address in the object from which the typed-data
    domain is derived, and in the object given to the serializer, is the
    signer client's account address when [useSignerAddress] is set and
    the smart account's address otherwise. *)
Theorem from_address (acc : AccountOrAddress) (tx : Obj) :
  account_truthy account_ = Some acc →
  (EvGetEip712Domain tx ∈ run.2 ∨
   ∃ sg, EvSerializeTransaction tx sg ∈ run.2) →
  tx !! "from" =
  Some (JString (if useSignerAddress
                 then address (wallet_account signerClient)
                 else address (parseAccount acc))).
Proof.
  intros Hacc Hin.
  assert (∀ acc', account_truthy account_ = Some acc' →
            address (fromAccount (parseAccount acc')) =
            if useSignerAddress then address (wallet_account signerClient)
            else address (parseAccount acc)) as Hfrom.
  { intros acc' Hacc'. rewrite Hacc in Hacc'. injection Hacc' as <-.
    unfold Configurable.fromAccount. by destruct useSignerAddress. }
  destruct Hin as [Hin|[sg Hin]];
    destruct run_outcome; trace_cases Hin;
    match goal with
    | HV : Configurable.Validated _ _ _ _ _ _ _ _ _ _ |- _ =>
        destruct HV as [_ Ha _ _ _ _ _]
    end.
  all: try (injection Hin as ->; rewrite domainRequest_from; f_equal;
            f_equal; by apply Hfrom).
  all: injection Hin as -> ->; rewrite serializerRequest_from; f_equal;
       f_equal; by apply Hfrom.
Qed.

(** With no declared chain, or a declared chain outside [VALID_CHAINS],
    the call fails before any read, signing or encoding, with the error
    of the first check that fails: the entry conversion, the account
    guard, the request assertion, and then the chain check itself. *)
Lemma invalid_chain_configurable :
  (chain = Undefined ∨ chain = Null ∨
   ∃ c, chain = Value c ∧ VALID_CHAINS !! id c = None) →
  run.2 = [] ∧
  (∀ e, normalized = Err e → run.1 = Err e) ∧
  (∀ t, normalized = Ok t →
     account_truthy account_ = None →
     run.1 = Err (AccountNotFoundError "/docs/actions/wallet/signTransaction")) ∧
  (∀ t acc e, normalized = Ok t →
     account_truthy account_ = Some acc →
     assertEip712Request (parseAccount acc) chain t = Err e →
     run.1 = Err e) ∧
  (∀ t acc, normalized = Ok t →
     account_truthy account_ = Some acc →
     assertEip712Request (parseAccount acc) chain t = Ok tt →
     run.1 = Err (BaseError "Invalid chain specified")).
Proof.
  intros Hbad.
  destruct run_outcome;
    try match goal with
        | HV : Configurable.Validated _ _ _ _ _ _ _ _ _ _ |- _ =>
            destruct HV as [_ _ _ Hc Hs _ _]
        end;
    try (exfalso; destruct Hbad as [Hb|[Hb|(c' & Hb & Hn)]]; congruence).
  all: split_and!; [done | intros; congruence ..].
Qed.

(** C6 (amended). A declared chain without [getEip712Domain] or without
    a transaction serializer makes the call fail with an empty trace, so
    nothing is signed.  Once the earlier guards have passed (account,
    request assertion, supported chain), the error is the missing-domain
    one when [getEip712Domain] is missing, and the missing-serializer one
    when [getEip712Domain] is there and the serializer is missing. *)
Theorem missing_capability_errors (c : ChainEIP712) :
  chain = Value c →
  (custom_getEip712Domain c = None ∨ serializers_transaction c = None →
   run.2 = [] ∧ ∃ e, run.1 = Err e) ∧
  (∀ transaction acc,
     normalized = Ok transaction →
     account_truthy account_ = Some acc →
     assertEip712Request (parseAccount acc) chain transaction = Ok tt →
     VALID_CHAINS !! id c ≠ None →
     (custom_getEip712Domain c = None →
      run.1 = Err (BaseError "`getEip712Domain` not found on chain.")) ∧
     (is_Some (custom_getEip712Domain c) →
      serializers_transaction c = None →
      run.1 = Err (BaseError "transaction serializer not found on chain."))).
Proof.
  intros Hchain. split.
  - intros Hmissing.
    destruct run_outcome;
      try match goal with
          | HV : Configurable.Validated _ _ _ _ _ _ _ _ _ _ |- _ =>
              destruct HV as [_ _ _ Hc _ Hd Hs]
          end;
      try (exfalso; destruct Hmissing; congruence).
    all: split; [done | by eexists].
  - intros transaction acc Hnorm Hacc Hreq Hsupported. split.
    + intros Hnone.
      destruct run_outcome;
        try match goal with
            | HV : Configurable.Validated _ _ _ _ _ _ _ _ _ _ |- _ =>
                destruct HV as [_ _ _ Hc _ Hd Hs]
            end;
        try done; try congruence.
      match goal with H : _ ∨ _ |- _ => destruct H; congruence end.
    + intros [g Hg] Hnone.
      destruct run_outcome;
        try match goal with
            | HV : Configurable.Validated _ _ _ _ _ _ _ _ _ _ |- _ =>
                destruct HV as [_ _ _ Hc _ Hd Hs]
            end;
        try done; try congruence.
      match goal with H : _ ∨ _ |- _ => destruct H; congruence end.
Qed.

(** C9 (amended). Apart from the keys the pipeline writes itself
    ([type], [from], [customSignature]) and the numeric keys, every
    field of the request reaches the serializer as the caller gave it,
    provided the normalization touches the listed keys only; and apart
    from the written keys and [chainId], the serializer sees exactly the
    request as normalized at entry. *)
Theorem request_fields_frame (tx : Obj) (sg : Signature) :
  (∀ t keys t' k,
     transformHexValues t keys = Ok t' → k ∉ keys → t' !! k = t !! k) →
  EvSerializeTransaction tx sg ∈ run.2 →
  ∃ transaction,
    normalized = Ok transaction ∧
    (∀ k, k ∉ Configurable.numeric_keys →
          k ∉ ["type"; "from"; "customSignature"] →
          tx !! k = args_transaction args !! k) ∧
    (∀ k, k ∉ ["type"; "from"; "customSignature"; "chainId"] →
          tx !! k = transaction !! k).
Proof.
  intros Hframe Hin.
  assert (∃ transaction,
            normalized = Ok transaction ∧
            ∀ k, k ∉ ["type"; "from"; "customSignature"; "chainId"] →
                 tx !! k = transaction !! k) as (transaction & Hnorm & Hsame).
  { destruct run_outcome; trace_cases Hin; injection Hin as -> ->;
      match goal with
      | HV : Configurable.Validated _ _ _ _ _ _ _ _ _ _ |- _ =>
          destruct HV as [Hn _ _ _ _ _ _]
      end;
      eexists; (split; [exact Hn|]); intros k Hk;
      by apply serializerRequest_other. }
  exists transaction. split_and!; [exact Hnorm | | exact Hsame].
  intros k Hkeys Hk.
  pose proof Hkeys as Hnum.
  unfold Configurable.numeric_keys in Hnum.
  rewrite !not_elem_of_cons in Hnum. rewrite !not_elem_of_cons in Hk.
  destruct Hnum as (_ & _ & _ & _ & _ & _ & Hchain & _).
  destruct Hk as (Htype & Hfrom & Hsig & _).
  rewrite Hsame
    by (rewrite !not_elem_of_cons; split_and!; [done..|]; apply not_elem_of_nil).
  unfold Configurable.normalize in Hnorm.
  rewrite (Hframe _ _ _ _ Hnorm Hkeys).
  by apply lookup_insert_ne.
Qed.

End ConfigurableProperties.

(** ** The restricted action *)

Section RestrictedProperties.

Variable BigInt : JsValue → Result Z.
Variable assertEip712Request :
  Account → Nullable ChainEIP712 → Obj → Result unit.
Variable encodeAbiParameters : list string → list AbiArg → Result Hex.

Variables (client : Client) (signerClient : WalletClient)
          (args : SignEip712TransactionParameters) (validatorAddress : Hex)
          (useSignerAddress : bool) (w : World).

Local Abbreviation run :=
  (Restricted.run BigInt assertEip712Request encodeAbiParameters client
     signerClient args validatorAddress useSignerAddress w).
Local Abbreviation Outcome :=
  (Restricted.Outcome BigInt assertEip712Request encodeAbiParameters client
     signerClient args validatorAddress useSignerAddress w).
Local Abbreviation account_ := (Restricted.account_ client args).
Local Abbreviation chain := (Restricted.chain client args).
Local Abbreviation fromAccount :=
  (Restricted.fromAccount signerClient useSignerAddress).
Local Abbreviation signer := (Restricted.signer signerClient).

(** Every call of the restricted action ends in one of its outcomes. *)
Lemma restricted_run_outcome : Outcome run.1 run.2.
Proof.
  unfold Restricted.run, Restricted.signTransaction.
  fold account_ chain.
  unfold mbind, M_bind, bind, lift, throw, ret, getChainId,
    callGetEip712Domain, signTypedData, callEncodeAbiParameters,
    callSerializer.
  destruct (Restricted.normalize BigInt (args_transaction args))
    as [t|e] eqn:Hnorm; [|by apply Restricted.NormalizeFailed].
  destruct (account_truthy account_) as [acc|] eqn:Hacc;
    [|by eapply Restricted.AccountMissing].
  fold (fromAccount (parseAccount acc)). fold signer.
  destruct (assertEip712Request _ _ _) as [[]|e] eqn:Hreq;
    [|by eapply Restricted.RequestRejected].
  destruct chain as [| |c] eqn:Hchain; rewrite <- Hchain in Hreq; cbn.
  1,2: by eapply Restricted.ChainUndeclared; eauto.
  destruct (bool_decide (id c ∈ Restricted.ALLOWED_CHAINS)) eqn:Hallowed;
    cbn.
  2: { apply bool_decide_eq_false in Hallowed.
       by eapply Restricted.ChainNotAllowed. }
  apply bool_decide_eq_true in Hallowed.
  destruct (custom_getEip712Domain c) as [g|] eqn:Hg;
    [|by eapply Restricted.DomainFunctionMissing].
  destruct (serializers_transaction c) as [ser|] eqn:Hser;
    [|by eapply Restricted.SerializerMissing].
  assert (Restricted.Validated BigInt assertEip712Request client args t acc
            c g ser) as HV by done.
  destruct (rpc_getChainId w) as [chainId|e] eqn:Hid;
    [|by eapply Restricted.ChainReadFailed].
  cbn.
  destruct (decide (chainId = id c)) as [->|Hne];
    [|by eapply Restricted.ChainMismatch].
  destruct (g _) as [eip712Domain|e] eqn:Hdom;
    [|by eapply Restricted.DomainFailed].
  destruct (signer_signTypedData w _ _) as [rawSignature|e] eqn:Hsig;
    [|by eapply Restricted.SignerFailed].
  destruct useSignerAddress eqn:Hmode; cbn.
  { exact (Restricted.Direct BigInt assertEip712Request encodeAbiParameters
             client signerClient args validatorAddress true w t acc c g ser
             eip712Domain rawSignature HV Hid Hdom Hsig eq_refl). }
  destruct (encodeAbiParameters _ _) as [signature|e] eqn:Henc.
  - exact (Restricted.Delegated BigInt assertEip712Request
             encodeAbiParameters client signerClient args validatorAddress
             false w t acc c g ser eip712Domain rawSignature signature HV Hid
             Hdom Hsig eq_refl Henc).
  - exact (Restricted.EncodingFailed BigInt assertEip712Request
             encodeAbiParameters client signerClient args validatorAddress
             false w t acc c g ser eip712Domain rawSignature e HV Hid Hdom
             Hsig eq_refl Henc).
Qed.

(** The restricted action fails on an undeclared chain, or one outside
    [ALLOWED_CHAINS], before any read, signing or encoding, with the
    error of the first check that fails: the value conversion, the
    account guard, the request assertion, and then the chain check
    itself. *)
Lemma invalid_chain_restricted :
  (chain = Undefined ∨ chain = Null ∨
   ∃ c, chain = Value c ∧ id c ∉ Restricted.ALLOWED_CHAINS) →
  run.2 = [] ∧
  (∀ e, Restricted.normalize BigInt (args_transaction args) = Err e →
     run.1 = Err e) ∧
  (∀ t, Restricted.normalize BigInt (args_transaction args) = Ok t →
     account_truthy account_ = None →
     run.1 = Err (AccountNotFoundError "/docs/actions/wallet/signTransaction")) ∧
  (∀ t acc e,
     Restricted.normalize BigInt (args_transaction args) = Ok t →
     account_truthy account_ = Some acc →
     assertEip712Request (parseAccount acc) chain t = Err e →
     run.1 = Err e) ∧
  (∀ t acc,
     Restricted.normalize BigInt (args_transaction args) = Ok t →
     account_truthy account_ = Some acc →
     assertEip712Request (parseAccount acc) chain t = Ok tt →
     run.1 = Err (BaseError "Invalid chain specified")).
Proof.
  intros Hbad.
  destruct restricted_run_outcome;
    try match goal with
        | HV : Restricted.Validated _ _ _ _ _ _ _ _ _ |- _ =>
            destruct HV as [_ _ _ Hc Hs _ _]
        end;
    try (exfalso; destruct Hbad as [Hb|[Hb|(c' & Hb & Hn)]]; congruence).
  all: split_and!; [done | intros; congruence ..].
Qed.

(** The restricted action never reads the hook registry, and whenever it
    calls the encoder the hook payload sequence is empty. *)
Lemma restricted_no_hooks (e : Event) :
  e ∈ run.2 →
  (∀ contract functionName a, e ≠ EvReadContract contract functionName a) ∧
  (∀ params values,
     e = EvEncodeAbiParameters params values →
     ∃ rawSignature,
       params = abi_params ∧
       values = [AHex rawSignature; AHex validatorAddress; AArr []]).
Proof.
  intros Hin.
  destruct restricted_run_outcome; restricted_trace_cases Hin; subst e;
    (split; [done|]); intros params values Heq; try discriminate Heq;
    injection Heq as <- <-; by eexists.
Qed.

End RestrictedProperties.

(** ** Both actions *)

Section BothActions.

Variable VALID_CHAINS : gmap Z ChainEIP712.
Variable transformHexValues : Obj → list string → Result Obj.
Variable BigInt : JsValue → Result Z.
Variable assertEip712Request :
  Account → Nullable ChainEIP712 → Obj → Result unit.
Variable encodeAbiParameters : list string → list AbiArg → Result Hex.

Variables (client : Client) (signerClient : WalletClient)
          (args : SignEip712TransactionParameters) (validator : Address)
          (validationHookData : gmap string Hex) (w : World).

Local Abbreviation configurable useSignerAddress :=
  (Configurable.run VALID_CHAINS transformHexValues assertEip712Request
     encodeAbiParameters client signerClient args validator useSignerAddress
     validationHookData w).
Local Abbreviation restricted useSignerAddress :=
  (Restricted.run BigInt assertEip712Request encodeAbiParameters client
     signerClient args validator useSignerAddress w).
Local Abbreviation chain := (Configurable.chain client args).
Local Abbreviation account_ := (Configurable.account_ client args).

(** C5 (amended). With no declared chain, or a declared chain outside
    the allow-list of the action ([VALID_CHAINS], [ALLOWED_CHAINS]), the
    call fails before any network read, signing or encoding call is
    issued, with the error of the first check that fails, in the order of
    the code: the entry conversion of the request ([transformHexValues],
    or [BigInt] of the value in the restricted action), the account
    guard, the request assertion, and the chain check, whose error is the
    invalid-chain one. *)
Theorem invalid_chain_fails_first (useSignerAddress : bool) :
  ((chain = Undefined ∨ chain = Null ∨
    ∃ c, chain = Value c ∧ VALID_CHAINS !! id c = None) →
   (configurable useSignerAddress).2 = [] ∧
   (∀ e,
      Configurable.normalize transformHexValues (args_transaction args)
        = Err e →
      (configurable useSignerAddress).1 = Err e) ∧
   (∀ t,
      Configurable.normalize transformHexValues (args_transaction args)
        = Ok t →
      account_truthy account_ = None →
      (configurable useSignerAddress).1 =
      Err (AccountNotFoundError "/docs/actions/wallet/signTransaction")) ∧
   (∀ t acc e,
      Configurable.normalize transformHexValues (args_transaction args)
        = Ok t →
      account_truthy account_ = Some acc →
      assertEip712Request (parseAccount acc) chain t = Err e →
      (configurable useSignerAddress).1 = Err e) ∧
   (∀ t acc,
      Configurable.normalize transformHexValues (args_transaction args)
        = Ok t →
      account_truthy account_ = Some acc →
      assertEip712Request (parseAccount acc) chain t = Ok tt →
      (configurable useSignerAddress).1 =
      Err (BaseError "Invalid chain specified"))) ∧
  ((chain = Undefined ∨ chain = Null ∨
    ∃ c, chain = Value c ∧ id c ∉ Restricted.ALLOWED_CHAINS) →
   (restricted useSignerAddress).2 = [] ∧
   (∀ e,
      Restricted.normalize BigInt (args_transaction args) = Err e →
      (restricted useSignerAddress).1 = Err e) ∧
   (∀ t,
      Restricted.normalize BigInt (args_transaction args) = Ok t →
      account_truthy account_ = None →
      (restricted useSignerAddress).1 =
      Err (AccountNotFoundError "/docs/actions/wallet/signTransaction")) ∧
   (∀ t acc e,
      Restricted.normalize BigInt (args_transaction args) = Ok t →
      account_truthy account_ = Some acc →
      assertEip712Request (parseAccount acc) chain t = Err e →
      (restricted useSignerAddress).1 = Err e) ∧
   (∀ t acc,
      Restricted.normalize BigInt (args_transaction args) = Ok t →
      account_truthy account_ = Some acc →
      assertEip712Request (parseAccount acc) chain t = Ok tt →
      (restricted useSignerAddress).1 =
      Err (BaseError "Invalid chain specified"))).
Proof.
  split; intros Hbad.
  - by apply invalid_chain_configurable.
  - by apply invalid_chain_restricted.
Qed.

(** C10 (amended). In delegated mode the restricted action never reads
    the hook registry and always encodes an empty hook payload sequence.
    When it succeeds on a request that both actions normalize alike, and
    a non-empty hook payload sequence in the composed signature changes
    what the serializer returns, the configurable action returns the
    same output exactly when its [listHooks] read returns the empty
    list. *)
Theorem restricted_refines_configurable :
  (∀ e, e ∈ (restricted false).2 →
     (∀ contract functionName a,
        e ≠ EvReadContract contract functionName a) ∧
     (∀ params values,
        e = EvEncodeAbiParameters params values →
        ∃ rawSignature,
          params = abi_params ∧
          values = [AHex rawSignature; AHex validator; AArr []])) ∧
  (∀ out c serializer,
     Configurable.normalize transformHexValues (args_transaction args) =
       Restricted.normalize BigInt (args_transaction args) →
     VALID_CHAINS !! Restricted.abstractTestnet_id ≠ None →
     (restricted false).1 = Ok out →
     chain = Value c →
     serializers_transaction c = Some serializer →
     (∀ transaction chainId fromAccount rawSignature hookData
        composed composed',
        hookData ≠ [] →
        encodeAbiParameters abi_params
          [AHex rawSignature; AHex validator; AArr []] = Ok composed →
        encodeAbiParameters abi_params
          [AHex rawSignature; AHex validator; AArr hookData]
          = Ok composed' →
        serializer
          (serializerRequest transaction chainId fromAccount composed)
          zero_signature = Ok out →
        serializer
          (serializerRequest transaction chainId fromAccount composed')
          zero_signature ≠ Ok out) →
     ((configurable false).1 = Ok out ↔
      ∃ clientAccount,
        client_account client = Some clientAccount ∧
        rpc_readContract w (address clientAccount) "listHooks" [JBool true]
          = Ok [])).
Proof.
  split; [apply restricted_no_hooks|].
  intros out c serializer Hnorm Hvalid Hok Hchain Hser Hvisible.
  pose proof (restricted_run_outcome BigInt assertEip712Request
                encodeAbiParameters client signerClient args validator false
                w) as Hr.
  rewrite Hok in Hr.
  pose proof (run_outcome VALID_CHAINS transformHexValues assertEip712Request
                encodeAbiParameters client signerClient args validator false
                validationHookData w) as Hc.
  inversion Hr as
    [ | | | | | | | | | | | |
    | t acc c' g ser td raw sig [Hn Ha Hq Hch Hal Hd Hs] Hid Hdom Hsig _ Henc
        Hout Htr ]; try discriminate.
  clear Hr Htr. rewrite Hout. clear Hok.
  unfold Restricted.chain, Restricted.account_, Restricted.fromAccount,
    Restricted.signer in *.
  fold chain account_ in *.
  assert (c' = c) as -> by congruence.
  assert (ser = serializer) as -> by congruence.
  rewrite Hn in Hnorm.
  assert (VALID_CHAINS !! id c ≠ None) as Hsupported.
  { apply list_elem_of_singleton in Hal. by rewrite Hal. }
  revert Hc.
  generalize (configurable false).1 (configurable false).2.
  intros rc tc Hc.
  destruct Hc as
    [ e Hn'
    | t' Hn' Ha'
    | t' acc' e Hn' Ha' Hq'
    | t' acc' Hn' Ha' Hq' Hch'
    | t' acc' c' Hn' Ha' Hq' Hch' Hv'
    | t' acc' c' Hn' Ha' Hq' Hch' Hv' Hd'
    | t' acc' c' g' Hn' Ha' Hq' Hch' Hv' Hd' Hs'
    | t' acc' c' g' ser' e [Hn' Ha' Hq' Hch' Hv' Hd' Hs'] Hid'
    | t' acc' c' g' ser' live [Hn' Ha' Hq' Hch' Hv' Hd' Hs'] Hid' Hne'
    | t' acc' c' g' ser' e [Hn' Ha' Hq' Hch' Hv' Hd' Hs'] Hid' Hdom'
    | t' acc' c' g' ser' td' e [Hn' Ha' Hq' Hch' Hv' Hd' Hs'] Hid' Hdom' Hsig'
    | t' acc' c' g' ser' td' raw' [Hn' Ha' Hq' Hch' Hv' Hd' Hs'] Hid' Hdom'
        Hsig' Hm'
    | t' acc' c' g' ser' td' raw' [Hn' Ha' Hq' Hch' Hv' Hd' Hs'] Hid' Hdom'
        Hsig' _ Hcl'
    | t' acc' c' g' ser' td' raw' cl' e [Hn' Ha' Hq' Hch' Hv' Hd' Hs'] Hid'
        Hdom' Hsig' _ Hcl' Hhooks'
    | t' acc' c' g' ser' td' raw' cl' hooks' e [Hn' Ha' Hq' Hch' Hv' Hd' Hs']
        Hid' Hdom' Hsig' _ Hcl' Hhooks' Henc'
    | t' acc' c' g' ser' td' raw' cl' hooks' sig' [Hn' Ha' Hq' Hch' Hv' Hd' Hs']
        Hid' Hdom' Hsig' _ Hcl' Hhooks' Henc' ];
    unfold Configurable.fromAccount, Configurable.signer in *;
    try (exfalso; congruence);
    try (exfalso; destruct Hch'; congruence).
  all: assert (t' = t) as -> by congruence.
  all: try (exfalso; congruence).
  all: assert (c' = c) as -> by congruence.
  all: try (exfalso; congruence).
  all: assert (acc' = acc) as -> by congruence.
  all: try (exfalso; congruence).
  all: assert (g' = g) as -> by congruence.
  all: try (exfalso; congruence).
  all: assert (td' = td) as -> by congruence.
  all: try (exfalso; congruence).
  all: assert (raw' = raw) as -> by congruence.
  - split; [discriminate|]. intros (cl & Hcl & _). congruence.
  - split; [discriminate|]. intros (cl & Hcl & Hread). congruence.
  - split; [discriminate|]. intros (cl & Hcl & Hread).
    assert (hooks' = []) as -> by congruence.
    change (collectHookData validationHookData []) with (@nil Hex) in Henc'.
    congruence.
  - assert (ser' = serializer) as -> by congruence.
    split.
    + intros Hsame.
      exists cl'. split; [done|].
      rewrite Hhooks'. f_equal.
      destruct hooks' as [|hook hooks']; [done|].
      exfalso.
      apply (Hvisible t (id c) (parseAccount acc) raw
               (collectHookData validationHookData (hook :: hooks'))
               sig sig'); try done.
      intros Hempty. apply (f_equal length) in Hempty.
      by rewrite collectHookData_length in Hempty.
    + intros (cl & Hcl & Hread).
      assert (hooks' = []) as -> by congruence.
      change (collectHookData validationHookData []) with (@nil Hex) in Henc'.
      assert (sig' = sig) as -> by congruence.
      done.
Qed.

End BothActions.

(** ** The concrete environment *)

(** The sample normalization touches the listed keys only. *)
Lemma sample_transform_step (t t' : Obj) (key k : string) :
  Sample.transformHexValue t key = Ok t' → k ≠ key → t' !! k = t !! k.
Proof.
  unfold Sample.transformHexValue. intros Hstep Hne.
  destruct (t !! key) as [[| | | h | | | |]|]; try by injection Hstep as <-.
  destruct (Sample.strip_0x h) as [[|ch digits]|];
    try discriminate Hstep; try by injection Hstep as <-.
  destruct (Sample.digits_value 0 (String ch digits));
    injection Hstep as <-; [|done].
  by apply lookup_insert_ne.
Qed.

Lemma sample_transform_failed (e : Error) (keys : list string) :
  foldl (λ sofar key,
           match sofar with
           | Ok tx => Sample.transformHexValue tx key
           | Err e' => Err e'
           end)
        (Err e) keys = Err e.
Proof. by induction keys. Qed.

Lemma sample_transform_frame (t : Obj) (keys : list string) (t' : Obj)
    (k : string) :
  Sample.transformHexValues t keys = Ok t' → k ∉ keys → t' !! k = t !! k.
Proof.
  unfold Sample.transformHexValues.
  revert t. induction keys as [|key keys IH]; intros t Hrun Hk.
  - by injection Hrun as <-.
  - apply not_elem_of_cons in Hk as [Hne Hk]. simpl in Hrun.
    destruct (Sample.transformHexValue t key) as [t1|e] eqn:Hstep.
    + rewrite (IH t1 Hrun Hk). by apply (sample_transform_step t t1 key).
    + by rewrite sample_transform_failed in Hrun.
Qed.

Lemma string_length_app (a b : string) :
  String.length (a +:+ b) = (String.length a + String.length b)%nat.
Proof. induction a as [|ch a IH]; simpl; [done|]. by rewrite IH. Qed.

Lemma string_app_cancel (a b c : string) : a +:+ b = a +:+ c → b = c.
Proof.
  induction a as [|ch a IH]; simpl; [done|].
  intros Heq. injection Heq as Heq. by apply IH.
Qed.

Lemma fixed_hex_length (width : nat) (n : Z) :
  String.length (Sample.fixed_hex width n) = width.
Proof.
  revert n. induction width as [|width IH]; intros n; simpl; [done|].
  rewrite string_length_app, IH. simpl. lia.
Qed.

Lemma all_bytes_digits_length (items : list Hex) (digits : list string) :
  Sample.all_bytes_digits items = Some digits →
  length digits = length items.
Proof.
  revert digits. induction items as [|h items IH]; intros digits; simpl.
  - by intros [= <-].
  - destruct (Sample.bytes_digits h); [|done].
    destruct (Sample.all_bytes_digits items) as [ds|]; [|done].
    intros [= <-]. simpl. by rewrite (IH ds).
Qed.

Lemma word_length (n : Z) : String.length (Sample.word n) = 64%nat.
Proof. apply fixed_hex_length. Qed.

Lemma offsets_length (start : Z) (encodings : list string) :
  String.length (Sample.offsets start encodings) =
  (64 * length encodings)%nat.
Proof.
  revert start.
  induction encodings as [|e encodings IH]; intros start; [done|].
  cbn [Sample.offsets length].
  rewrite string_length_app, word_length, IH. lia.
Qed.

(** An array encoding is one word long only for the empty array. *)
Lemma encode_bytes_array_length (items : list string) :
  (64 + 64 * length items <=
   String.length (Sample.encode_bytes_array items))%nat.
Proof.
  unfold Sample.encode_bytes_array.
  rewrite !string_length_app, word_length, offsets_length, length_map.
  lia.
Qed.

(** The sample encoder gives the empty hook payload sequence an encoding
    of its own. *)
Lemma sample_encoder_distinguishes (rawSignature : Hex) (validator : Address)
    (hookData : list Hex) (signature : Hex) :
  Sample.encodeAbiParameters abi_params
    [AHex rawSignature; AHex validator; AArr []] = Ok signature →
  Sample.encodeAbiParameters abi_params
    [AHex rawSignature; AHex validator; AArr hookData] = Ok signature →
  hookData = [].
Proof.
  unfold Sample.encodeAbiParameters, abi_params.
  destruct (Sample.bytes_digits rawSignature) as [sig_digits|]; [|done].
  destruct (Sample.address_digits validator) as [addr_digits|]; [|done].
  destruct (Sample.all_bytes_digits hookData) as [items|] eqn:Hitems;
    [|done].
  simpl Sample.all_bytes_digits.
  intros [= <-] [= Heq].
  repeat (apply string_app_cancel in Heq).
  apply (f_equal String.length) in Heq.
  pose proof (encode_bytes_array_length items) as Hlen.
  rewrite Heq in Hlen.
  apply all_bytes_digits_length in Hitems.
  apply nil_length_inv.
  rewrite <- Hitems.
  change (String.length (Sample.encode_bytes_array [])) with 64%nat in Hlen.
  lia.
Qed.

(** The sample serializer returns the custom signature, so a non-empty
    hook payload sequence in the composed signature changes its
    output. *)
Lemma sample_hooks_visible (transaction : Obj) (chainId : Z)
    (fromAccount : Account) (rawSignature : Hex) (validator : Address)
    (hookData : list Hex) (composed composed' out : Hex) :
  hookData ≠ [] →
  Sample.encodeAbiParameters abi_params
    [AHex rawSignature; AHex validator; AArr []] = Ok composed →
  Sample.encodeAbiParameters abi_params
    [AHex rawSignature; AHex validator; AArr hookData] = Ok composed' →
  Sample.serializeTransaction
    (serializerRequest transaction chainId fromAccount composed)
    zero_signature = Ok out →
  Sample.serializeTransaction
    (serializerRequest transaction chainId fromAccount composed')
    zero_signature ≠ Ok out.
Proof.
  unfold Sample.serializeTransaction.
  rewrite !serializerRequest_customSignature.
  intros Hfull Hempty Hhooks [= <-] [= ->].
  apply Hfull.
  by apply (sample_encoder_distinguishes rawSignature validator hookData
              composed).
Qed.

(** ** The claims at concrete calls *)

(** C1 at the sample delegated call: the serializer received the ABI
    encoding of (raw signature, validator, [0x1234; 0x]). *)
Lemma signature_composition_witness :
  EvSerializeTransaction Sample.delegated_request zero_signature
    ∈ (Sample.configurable Sample.client (Sample.args Sample.transfer) false
         (Sample.world 11124 [Sample.hookA; Sample.hookB])).2 ∧
  ∃ encoded,
    Sample.encodeAbiParameters ["bytes"; "address"; "bytes[]"]
      [AHex Sample.rawSignature; AHex Sample.validator;
       AArr ["0x1234"; "0x"]] = Ok encoded ∧
    Sample.delegated_request !! "customSignature" = Some (JString encoded).
Proof.
  assert (EvSerializeTransaction Sample.delegated_request zero_signature
            ∈ (Sample.configurable Sample.client (Sample.args Sample.transfer)
                 false (Sample.world 11124 [Sample.hookA; Sample.hookB])).2)
    as Hin by in_computed_trace.
  split; [exact Hin|].
  destruct (signature_composition Sample.VALID_CHAINS
              Sample.transformHexValues Sample.assertEip712Request
              Sample.encodeAbiParameters Sample.client Sample.signerClient
              (Sample.args Sample.transfer) Sample.validator false
              Sample.hookPayloads
              (Sample.world 11124 [Sample.hookA; Sample.hookB])
              Sample.delegated_request zero_signature Hin)
    as (typedData & raw & _ & Hraw & cl & hooks & encoded & _ & Hread & _
        & Henc & Hfield).
  injection Hraw as <-. injection Hread as <-.
  exists encoded. split; [exact Henc | exact Hfield].
Defined.

(** C2 at the sample delegated call: the live hook list is
    [hookA; hookB], the map knows [hookA] only, and the encoder received
    [0x1234; 0x]. *)
Lemma hook_payload_sequence_witness :
  EvEncodeAbiParameters abi_params
    [AHex Sample.rawSignature; AHex Sample.validator; AArr ["0x1234"; "0x"]]
    ∈ (Sample.configurable Sample.client (Sample.args Sample.transfer) false
         (Sample.world 11124 [Sample.hookA; Sample.hookB])).2 ∧
  ∀ i hook, [Sample.hookA; Sample.hookB] !! i = Some hook →
    ["0x1234"; "0x"] !! i =
    Some (match Sample.hookPayloads !! hook with
          | Some payload => payload
          | None => "0x"
          end).
Proof.
  assert (EvEncodeAbiParameters abi_params
            [AHex Sample.rawSignature; AHex Sample.validator;
             AArr ["0x1234"; "0x"]]
            ∈ (Sample.configurable Sample.client (Sample.args Sample.transfer)
                 false (Sample.world 11124 [Sample.hookA; Sample.hookB])).2)
    as Hin by in_computed_trace.
  split; [exact Hin|].
  destruct (hook_payload_sequence Sample.VALID_CHAINS
              Sample.transformHexValues Sample.assertEip712Request
              Sample.encodeAbiParameters Sample.client Sample.signerClient
              (Sample.args Sample.transfer) Sample.validator false
              Sample.hookPayloads
              (Sample.world 11124 [Sample.hookA; Sample.hookB]) eq_refl)
    as [Hparallel _].
  destruct (Hparallel _ _ Hin)
    as (cl & hooks & raw & hookData & _ & _ & Hread & Hvalues & _ & Hlookup).
  injection Hread as <-. injection Hvalues as _ <-.
  exact Hlookup.
Defined.

(** C4 at a call whose live chain id is 1 while the declared chain is
    the test network. *)
Lemma chain_mismatch_short_circuits_witness :
  EvGetChainId
    ∈ (Sample.configurable Sample.client (Sample.args Sample.transfer) false
         (Sample.world 1 [Sample.hookA; Sample.hookB])).2 ∧
  (Sample.configurable Sample.client (Sample.args Sample.transfer) false
     (Sample.world 1 [Sample.hookA; Sample.hookB])).1
    = Err (ChainMismatchError 11124 1) ∧
  ∀ typedData account,
    EvSignTypedData typedData account
      ∉ (Sample.configurable Sample.client (Sample.args Sample.transfer) false
           (Sample.world 1 [Sample.hookA; Sample.hookB])).2.
Proof.
  assert (EvGetChainId
            ∈ (Sample.configurable Sample.client (Sample.args Sample.transfer)
                 false (Sample.world 1 [Sample.hookA; Sample.hookB])).2)
    as Hin by in_computed_trace.
  split; [exact Hin|].
  destruct (chain_mismatch_short_circuits Sample.VALID_CHAINS
              Sample.transformHexValues Sample.assertEip712Request
              Sample.encodeAbiParameters Sample.client Sample.signerClient
              (Sample.args Sample.transfer) Sample.validator false
              Sample.hookPayloads
              (Sample.world 1 [Sample.hookA; Sample.hookB])
              Sample.abstractTestnet 1 eq_refl Hin eq_refl)
    as (Herr & _ & Hquiet); [by vm_compute|].
  split; [exact Herr | exact Hquiet].
Defined.

(** C7 at the sample delegated call. *)
Lemma custom_signature_field_witness :
  (Sample.configurable Sample.client (Sample.args Sample.transfer) false
     (Sample.world 11124 [Sample.hookA; Sample.hookB])).1
    = Ok Sample.delegated_signature ∧
  ∃ tx signature,
    last (Sample.configurable Sample.client (Sample.args Sample.transfer)
            false (Sample.world 11124 [Sample.hookA; Sample.hookB])).2 =
      Some (EvSerializeTransaction tx {| r := "0x0"; s := "0x0"; v := 0 |}) ∧
    tx !! "customSignature" = Some (JString signature).
Proof.
  assert ((Sample.configurable Sample.client (Sample.args Sample.transfer)
             false (Sample.world 11124 [Sample.hookA; Sample.hookB])).1
            = Ok Sample.delegated_signature) as Hok by (vm_compute; reflexivity).
  split; [exact Hok|].
  destruct (custom_signature_field Sample.VALID_CHAINS
              Sample.transformHexValues Sample.assertEip712Request
              Sample.encodeAbiParameters Sample.client Sample.signerClient
              (Sample.args Sample.transfer) Sample.validator false
              Sample.hookPayloads
              (Sample.world 11124 [Sample.hookA; Sample.hookB])
              Sample.delegated_signature Hok)
    as (c & serializer & tx & signature & _ & _ & Hlast & _ & _ & Hfield & _).
  exists tx, signature. split; [exact Hlast | exact Hfield].
Defined.

(** C8 at the sample direct call: the signer's address is the [from]
    address. *)
Lemma from_address_witness :
  EvSerializeTransaction Sample.direct_request zero_signature
    ∈ (Sample.configurable Sample.client (Sample.args Sample.transfer) true
         (Sample.world 11124 [Sample.hookA; Sample.hookB])).2 ∧
  Sample.direct_request !! "from" =
  Some (JString "0x2222222222222222222222222222222222222222").
Proof.
  assert (EvSerializeTransaction Sample.direct_request zero_signature
            ∈ (Sample.configurable Sample.client (Sample.args Sample.transfer)
                 true (Sample.world 11124 [Sample.hookA; Sample.hookB])).2)
    as Hin by in_computed_trace.
  split; [exact Hin|].
  apply (from_address Sample.VALID_CHAINS
           Sample.transformHexValues Sample.assertEip712Request
           Sample.encodeAbiParameters Sample.client Sample.signerClient
           (Sample.args Sample.transfer) Sample.validator true
           Sample.hookPayloads
           (Sample.world 11124 [Sample.hookA; Sample.hookB])
           (OfAccount Sample.smartAccount) Sample.direct_request eq_refl).
  right. exists zero_signature. exact Hin.
Defined.

(** C3 at a request that carries [chainId = 1] while the live chain id
    and the declared chain's id are both 11124: the call succeeds, the
    typed-data domain is derived with the live chain id 11124, and the
    serializer receives the request's chain id 1. *)
Theorem serializer_chain_id_divergence :
  rpc_getChainId (Sample.world 11124 [Sample.hookA; Sample.hookB])
    = Ok 11124 ∧
  (Sample.configurable Sample.client
     (Sample.args Sample.transfer_with_chain_id) false
     (Sample.world 11124 [Sample.hookA; Sample.hookB])).1
    = Ok Sample.delegated_signature ∧
  EvGetEip712Domain Sample.signed_request_with_chain_id
    ∈ (Sample.configurable Sample.client
         (Sample.args Sample.transfer_with_chain_id) false
         (Sample.world 11124 [Sample.hookA; Sample.hookB])).2 ∧
  Sample.signed_request_with_chain_id !! "chainId" = Some (JNumber 11124) ∧
  EvSerializeTransaction Sample.serialized_request_with_chain_id
      zero_signature
    ∈ (Sample.configurable Sample.client
         (Sample.args Sample.transfer_with_chain_id) false
         (Sample.world 11124 [Sample.hookA; Sample.hookB])).2 ∧
  Sample.serialized_request_with_chain_id !! "chainId" = Some (JNumber 1).
Proof.
  split_and!.
  - reflexivity.
  - vm_compute. reflexivity.
  - in_computed_trace.
  - vm_compute. reflexivity.
  - in_computed_trace.
  - vm_compute. reflexivity.
Qed.

(** C5, as stated, fails at a call with no chain and no account: the
    account guard comes first and raises the account error. *)
Lemma invalid_chain_counterexample :
  Configurable.chain Sample.bare_client (Sample.args Sample.transfer)
    = Undefined ∧
  (Sample.configurable Sample.bare_client (Sample.args Sample.transfer) false
     (Sample.world 11124 [])).1
    = Err (AccountNotFoundError "/docs/actions/wallet/signTransaction") ∧
  (Sample.configurable Sample.bare_client (Sample.args Sample.transfer) false
     (Sample.world 11124 [])).1
    ≠ Err (BaseError "Invalid chain specified").
Proof.
  split_and!; [reflexivity | reflexivity | discriminate].
Qed.

(** C5 (amended) at calls with no chain, for both actions: with an
    account, the invalid-chain error; with a request assertion that
    rejects the request, the assertion's error; with no account and the
    value ['0x'], the error of the entry conversion, which comes
    first. *)
Lemma invalid_chain_fails_first_witness :
  ((Sample.configurable Sample.chainless_client (Sample.args Sample.transfer)
      false (Sample.world 11124 [])).2 = [] ∧
   (Sample.configurable Sample.chainless_client (Sample.args Sample.transfer)
      false (Sample.world 11124 [])).1
     = Err (BaseError "Invalid chain specified")) ∧
  ((Sample.restricted Sample.chainless_client (Sample.args Sample.transfer)
      false (Sample.world 11124 [])).2 = [] ∧
   (Sample.restricted Sample.chainless_client (Sample.args Sample.transfer)
      false (Sample.world 11124 [])).1
     = Err (BaseError "Invalid chain specified")) ∧
  (Configurable.run Sample.VALID_CHAINS Sample.transformHexValues
     (λ _ _ _, Err (BaseError "InvalidEip712TransactionError"))
     Sample.encodeAbiParameters Sample.chainless_client Sample.signerClient
     (Sample.args Sample.transfer) Sample.validator false Sample.hookPayloads
     (Sample.world 11124 [])).1
    = Err (BaseError "InvalidEip712TransactionError") ∧
  (Sample.configurable Sample.bare_client
     (Sample.args {[ "value" := JString "0x" ]}) false
     (Sample.world 11124 [])).1
    = Err (CollaboratorError "SyntaxError").
Proof.
  destruct (invalid_chain_fails_first Sample.VALID_CHAINS
              Sample.transformHexValues Sample.BigInt
              Sample.assertEip712Request Sample.encodeAbiParameters
              Sample.chainless_client Sample.signerClient
              (Sample.args Sample.transfer) Sample.validator
              Sample.hookPayloads (Sample.world 11124 []) false)
    as [Hconfigurable Hrestricted].
  split; [|split; [|split]].
  - destruct Hconfigurable as (Htrace & _ & _ & _ & Herr); [by left|].
    split; [exact Htrace|].
    apply (Herr (<["value" := JBigInt 42]>
                   (<["type" := JString "eip712"]> Sample.transfer))
                (OfAccount Sample.smartAccount)); [|done..].
    vm_compute. reflexivity.
  - destruct Hrestricted as (Htrace & _ & _ & _ & Herr); [by left|].
    split; [exact Htrace|].
    apply (Herr (<["value" := JBigInt 42]>
                   (<["type" := JString "eip712"]> Sample.transfer))
                (OfAccount Sample.smartAccount)); [|done..].
    vm_compute. reflexivity.
  - destruct (invalid_chain_fails_first Sample.VALID_CHAINS
                Sample.transformHexValues Sample.BigInt
                (λ _ _ _, Err (BaseError "InvalidEip712TransactionError"))
                Sample.encodeAbiParameters Sample.chainless_client
                Sample.signerClient (Sample.args Sample.transfer)
                Sample.validator Sample.hookPayloads (Sample.world 11124 [])
                false)
      as [Hrejected _].
    destruct Hrejected as (_ & _ & _ & Hassertion & _); [by left|].
    apply (Hassertion (<["value" := JBigInt 42]>
                         (<["type" := JString "eip712"]> Sample.transfer))
                      (OfAccount Sample.smartAccount)); [|done..].
    vm_compute. reflexivity.
  - destruct (invalid_chain_fails_first Sample.VALID_CHAINS
                Sample.transformHexValues Sample.BigInt
                Sample.assertEip712Request Sample.encodeAbiParameters
                Sample.bare_client Sample.signerClient
                (Sample.args {[ "value" := JString "0x" ]}) Sample.validator
                Sample.hookPayloads (Sample.world 11124 []) false)
      as [Hentry _].
    destruct Hentry as (_ & Hconversion & _); [by left|].
    apply Hconversion. vm_compute. reflexivity.
Defined.

(** C6, as stated, fails at a supported chain with neither capability:
    the serializer is missing, and the error is the one for the missing
    domain function, which is checked first. *)
Lemma missing_capability_counterexample :
  Configurable.chain Sample.client
    (Sample.args_on Sample.chain_without_capabilities Sample.transfer)
    = Value Sample.chain_without_capabilities ∧
  serializers_transaction Sample.chain_without_capabilities = None ∧
  (Sample.configurable Sample.client
     (Sample.args_on Sample.chain_without_capabilities Sample.transfer)
     false (Sample.world 11124 [])).1
    = Err (BaseError "`getEip712Domain` not found on chain.") ∧
  (Sample.configurable Sample.client
     (Sample.args_on Sample.chain_without_capabilities Sample.transfer)
     false (Sample.world 11124 [])).1
    ≠ Err (BaseError "transaction serializer not found on chain.").
Proof.
  split_and!; [reflexivity | reflexivity | reflexivity | discriminate].
Qed.

(** C6 (amended) at a supported chain that has [getEip712Domain] and no
    serializer. *)
Lemma missing_capability_errors_witness :
  (Sample.configurable Sample.client
     (Sample.args_on Sample.chain_without_serializer Sample.transfer)
     false (Sample.world 11124 [])).2 = [] ∧
  (Sample.configurable Sample.client
     (Sample.args_on Sample.chain_without_serializer Sample.transfer)
     false (Sample.world 11124 [])).1
    = Err (BaseError "transaction serializer not found on chain.").
Proof.
  destruct (missing_capability_errors Sample.VALID_CHAINS
              Sample.transformHexValues Sample.assertEip712Request
              Sample.encodeAbiParameters Sample.client Sample.signerClient
              (Sample.args_on Sample.chain_without_serializer Sample.transfer)
              Sample.validator false Sample.hookPayloads
              (Sample.world 11124 []) Sample.chain_without_serializer eq_refl)
    as [Hquiet Herrors].
  split.
  - by destruct Hquiet as [Htrace _]; [right|].
  - destruct (Herrors (<["value" := JBigInt 42]>
                         (<["type" := JString "eip712"]> Sample.transfer))
                      (OfAccount Sample.smartAccount))
      as [_ Hserializer];
      [vm_compute; reflexivity | reflexivity | reflexivity | by vm_compute |].
    by apply Hserializer.
Defined.

(** C9, as stated, fails at a request that carries a [customSignature]
    of its own: it is not a numeric field, and the serializer receives
    the composed signature in its place. *)
Lemma request_fields_counterexample :
  ("customSignature" ∉ Configurable.numeric_keys) ∧
  (args_transaction (Sample.args Sample.transfer_with_custom_signature))
    !! "customSignature" = Some (JString "0xdead") ∧
  EvSerializeTransaction Sample.serialized_request_with_custom_signature
      zero_signature
    ∈ (Sample.configurable Sample.client
         (Sample.args Sample.transfer_with_custom_signature) true
         (Sample.world 11124 [])).2 ∧
  Sample.serialized_request_with_custom_signature !! "customSignature"
    = Some (JString Sample.rawSignature) ∧
  Sample.serialized_request_with_custom_signature !! "customSignature"
    ≠ (args_transaction (Sample.args Sample.transfer_with_custom_signature))
        !! "customSignature".
Proof.
  split_and!.
  - unfold Configurable.numeric_keys. rewrite !not_elem_of_cons.
    split_and!; [done..|]. apply not_elem_of_nil.
  - vm_compute. reflexivity.
  - in_computed_trace.
  - vm_compute. reflexivity.
  - vm_compute. discriminate.
Qed.

(** C9 (amended) at the sample delegated call: recipient and call data
    reach the serializer as given, and the value as normalized at
    entry. *)
Lemma request_fields_frame_witness :
  EvSerializeTransaction Sample.delegated_request zero_signature
    ∈ (Sample.configurable Sample.client (Sample.args Sample.transfer) false
         (Sample.world 11124 [Sample.hookA; Sample.hookB])).2 ∧
  Sample.delegated_request !! "to" = Some (JString Sample.recipient) ∧
  Sample.delegated_request !! "data" = Some (JString "0x") ∧
  Sample.delegated_request !! "value" = Some (JBigInt 42).
Proof.
  assert (EvSerializeTransaction Sample.delegated_request zero_signature
            ∈ (Sample.configurable Sample.client (Sample.args Sample.transfer)
                 false (Sample.world 11124 [Sample.hookA; Sample.hookB])).2)
    as Hin by in_computed_trace.
  split; [exact Hin|].
  destruct (request_fields_frame Sample.VALID_CHAINS
              Sample.transformHexValues Sample.assertEip712Request
              Sample.encodeAbiParameters Sample.client Sample.signerClient
              (Sample.args Sample.transfer) Sample.validator false
              Sample.hookPayloads
              (Sample.world 11124 [Sample.hookA; Sample.hookB])
              Sample.delegated_request zero_signature
              sample_transform_frame Hin)
    as (transaction & Hnorm & Hgiven & Hnormalized).
  split_and!.
  - rewrite Hgiven; [reflexivity| |].
    + unfold Configurable.numeric_keys. rewrite !not_elem_of_cons.
      split_and!; [done..|]. apply not_elem_of_nil.
    + rewrite !not_elem_of_cons. split_and!; [done..|]. apply not_elem_of_nil.
  - rewrite Hgiven; [reflexivity| |].
    + unfold Configurable.numeric_keys. rewrite !not_elem_of_cons.
      split_and!; [done..|]. apply not_elem_of_nil.
    + rewrite !not_elem_of_cons. split_and!; [done..|]. apply not_elem_of_nil.
  - rewrite Hnormalized;
      [|rewrite !not_elem_of_cons; split_and!; [done..|];
        apply not_elem_of_nil].
    vm_compute in Hnorm. injection Hnorm as <-. by vm_compute.
Defined.

(** C10, as stated, fails at a chain whose serializer ignores the
    request: both actions succeed on the same normalized request with the
    same output, and the live hook list has one element. *)
Lemma restricted_refines_counterexample :
  Configurable.normalize Sample.transformHexValues Sample.transfer
    = Restricted.normalize Sample.BigInt Sample.transfer ∧
  rpc_readContract (Sample.world 11124 [Sample.hookA])
    (address Sample.smartAccount) "listHooks" [JBool true]
    = Ok [Sample.hookA] ∧
  (Sample.restricted Sample.client
     (Sample.args_on Sample.chain_with_constant_serializer Sample.transfer)
     false (Sample.world 11124 [Sample.hookA])).1 = Ok "0x71" ∧
  (Sample.configurable Sample.client
     (Sample.args_on Sample.chain_with_constant_serializer Sample.transfer)
     false (Sample.world 11124 [Sample.hookA])).1 = Ok "0x71" ∧
  ¬ ((Sample.configurable Sample.client
        (Sample.args_on Sample.chain_with_constant_serializer Sample.transfer)
        false (Sample.world 11124 [Sample.hookA])).1
     = (Sample.restricted Sample.client
          (Sample.args_on Sample.chain_with_constant_serializer
             Sample.transfer)
          false (Sample.world 11124 [Sample.hookA])).1
     ↔ rpc_readContract (Sample.world 11124 [Sample.hookA])
         (address Sample.smartAccount) "listHooks" [JBool true] = Ok []).
Proof.
  split_and!.
  - vm_compute. reflexivity.
  - reflexivity.
  - vm_compute. reflexivity.
  - vm_compute. reflexivity.
  - intros [Hhooks _].
    assert (Ok [Sample.hookA] = Ok []) as Habsurd.
    { apply Hhooks. vm_compute. reflexivity. }
    discriminate Habsurd.
Qed.

(** C10 (amended) at the sample call with an empty live hook list: the
    two actions return the same output. *)
Lemma restricted_refines_configurable_witness :
  (Sample.restricted Sample.client (Sample.args Sample.transfer) false
     (Sample.world 11124 [])).1 = Ok Sample.hookless_signature ∧
  (Sample.configurable Sample.client (Sample.args Sample.transfer) false
     (Sample.world 11124 [])).1 = Ok Sample.hookless_signature.
Proof.
  assert ((Sample.restricted Sample.client (Sample.args Sample.transfer)
             false (Sample.world 11124 [])).1 = Ok Sample.hookless_signature)
    as Hok by (vm_compute; reflexivity).
  split; [exact Hok|].
  destruct (restricted_refines_configurable Sample.VALID_CHAINS
              Sample.transformHexValues Sample.BigInt
              Sample.assertEip712Request Sample.encodeAbiParameters
              Sample.client Sample.signerClient (Sample.args Sample.transfer)
              Sample.validator Sample.hookPayloads (Sample.world 11124 []))
    as [_ Hsame].
  apply (Hsame Sample.hookless_signature Sample.abstractTestnet
           Sample.serializeTransaction).
  - vm_compute. reflexivity.
  - by vm_compute.
  - exact Hok.
  - reflexivity.
  - reflexivity.
  - intros transaction chainId fromAccount rawSignature hookData composed
      composed'.
    apply sample_hooks_visible.
  - exists Sample.smartAccount. split; reflexivity.
Defined.

(** * Further properties of the code *)

(** ** The hook loop *)

(** Two payload maps that agree on the listed hooks give the same
    payload sequence. *)
Lemma collectHookData_agree (m1 m2 : gmap string Hex)
    (validationHooks : list Address) :
  (∀ hook, hook ∈ validationHooks → m1 !! hook = m2 !! hook) →
  collectHookData m1 validationHooks = collectHookData m2 validationHooks.
Proof.
  intros Hagree. rewrite !collectHookData_map.
  induction validationHooks as [|hook hooks IH]; [done|].
  simpl. rewrite Hagree by apply list_elem_of_here.
  f_equal. apply IH. intros h Hh. apply Hagree. by apply list_elem_of_further.
Qed.

(** ** The configurable action, further *)

Section ConfigurableCoverage.

Variable VALID_CHAINS : gmap Z ChainEIP712.
Variable transformHexValues : Obj → list string → Result Obj.
Variable assertEip712Request :
  Account → Nullable ChainEIP712 → Obj → Result unit.
Variable encodeAbiParameters : list string → list AbiArg → Result Hex.

Variables (client : Client) (signerClient : WalletClient)
          (args : SignEip712TransactionParameters) (validator : Address)
          (useSignerAddress : bool) (validationHookData : gmap string Hex)
          (w : World).

Local Abbreviation run :=
  (Configurable.run VALID_CHAINS transformHexValues assertEip712Request
     encodeAbiParameters client signerClient args validator useSignerAddress
     validationHookData w).
Local Abbreviation outcome :=
  (run_outcome VALID_CHAINS transformHexValues assertEip712Request
     encodeAbiParameters client signerClient args validator useSignerAddress
     validationHookData w).
Local Abbreviation account_ := (Configurable.account_ client args).
Local Abbreviation chain := (Configurable.chain client args).
Local Abbreviation normalized :=
  (Configurable.normalize transformHexValues (args_transaction args)).
Local Abbreviation fromAccount :=
  (Configurable.fromAccount signerClient useSignerAddress).

(** X1. The account guard.  No account resolves exactly when the
    argument's account is [null] or the empty string, or is left out
    while the client has none.  The call then makes no call and fails,
    whatever the chain is: with the error of the entry conversion when
    [transformHexValues] throws, which comes first, and otherwise with
    the account-not-found error, before the request assertion and the
    chain checks. *)
Theorem account_guard :
  (account_truthy account_ = None ↔
   args_account args = Null ∨
   args_account args = Value (OfAddress "") ∨
   (args_account args = Undefined ∧ client_account client = None)) ∧
  (account_truthy account_ = None →
   run.2 = [] ∧
   (∀ e, normalized = Err e → run.1 = Err e) ∧
   (∀ transaction, normalized = Ok transaction →
      run.1 =
      Err (AccountNotFoundError "/docs/actions/wallet/signTransaction"))).
Proof.
  split.
  - unfold Configurable.account_, with_default, account_truthy.
    destruct (args_account args) as [| |[[|ch a]|acc]],
             (client_account client) as [cl|]; simpl; split;
      try (intros [H|[H|[H H']]]; congruence);
      try discriminate; intros _; auto.
  - intros Hnone.
    destruct outcome;
      try match goal with
          | HV : Configurable.Validated _ _ _ _ _ _ _ _ _ _ |- _ =>
              destruct HV as [_ Ha _ _ _ _ _]
          end;
      try congruence.
    all: split_and!; [done | intros; congruence ..].
Qed.

(** X2. The chain of the arguments comes before the client's.  When the
    arguments give a chain (an object or [null]), the client's own chain
    plays no role in the call; and an explicit [null] makes the call
    fail before any read or signing, even on a client with a supported
    chain. *)
Theorem args_chain_precedence :
  (∀ client',
     args_chain args ≠ Undefined →
     client_account client' = client_account client →
     Configurable.run VALID_CHAINS transformHexValues assertEip712Request
       encodeAbiParameters client' signerClient args validator
       useSignerAddress validationHookData w = run) ∧
  (args_chain args = Null →
   run.2 = [] ∧ ∃ e, run.1 = Err e).
Proof.
  split.
  - intros client' Hgiven Hsame.
    unfold Configurable.run, Configurable.signTransaction.
    rewrite Hsame.
    destruct (args_chain args); [done|reflexivity..].
  - intros Hnull.
    assert (chain = Null) as Hchain
      by (unfold Configurable.chain; by rewrite Hnull).
    destruct outcome;
      try match goal with
          | HV : Configurable.Validated _ _ _ _ _ _ _ _ _ _ |- _ =>
              destruct HV as [_ _ _ Hc _ _ _]
          end;
      try congruence.
    all: split; [done | by eexists].
Qed.

(** X3. Every contract read of a call is the [listHooks(true)] read of
    delegated mode, and it is addressed to the client's account, also
    when the arguments name another account. *)
Theorem hook_read_target (contract : Address) (functionName : string)
    (a : list JsValue) :
  EvReadContract contract functionName a ∈ run.2 →
  useSignerAddress = false ∧
  functionName = "listHooks" ∧
  a = [JBool true] ∧
  ∃ clientAccount,
    client_account client = Some clientAccount ∧
    contract = address clientAccount.
Proof.
  intros Hin.
  destruct outcome; trace_cases Hin; injection Hin as -> -> ->;
    (split_and!; [done..|]); by eexists.
Qed.

(** X4. The first failing call ends the run.  When the chain-id read,
    the domain derivation, the signer, the hook read or the encoder
    answers with an error, that error is the result of the call and the
    failing call is the last one made; and the result of a call that
    reaches the serializer is whatever the serializer returns. *)
Theorem first_failure_aborts (e : Error) :
  (EvGetChainId ∈ run.2 → rpc_getChainId w = Err e →
   run = (Err e, [EvGetChainId])) ∧
  (∀ c g tx,
     chain = Value c → custom_getEip712Domain c = Some g →
     EvGetEip712Domain tx ∈ run.2 → g tx = Err e →
     run.1 = Err e ∧ last run.2 = Some (EvGetEip712Domain tx)) ∧
  (∀ typedData account,
     EvSignTypedData typedData account ∈ run.2 →
     signer_signTypedData w typedData account = Err e →
     run.1 = Err e ∧ last run.2 = Some (EvSignTypedData typedData account)) ∧
  (∀ contract functionName a,
     EvReadContract contract functionName a ∈ run.2 →
     rpc_readContract w contract functionName a = Err e →
     run.1 = Err e ∧
     last run.2 = Some (EvReadContract contract functionName a)) ∧
  (∀ params values,
     EvEncodeAbiParameters params values ∈ run.2 →
     encodeAbiParameters params values = Err e →
     run.1 = Err e ∧
     last run.2 = Some (EvEncodeAbiParameters params values)) ∧
  (∀ c serializer tx sg,
     chain = Value c → serializers_transaction c = Some serializer →
     EvSerializeTransaction tx sg ∈ run.2 →
     run.1 = serializer tx sg ∧
     last run.2 = Some (EvSerializeTransaction tx sg)).
Proof.
  split_and!.
  - intros Hin Hfail.
    rewrite (surjective_pairing run).
    destruct outcome; trace_cases Hin; congruence.
  - intros c g tx Hchain Hg Hin Hfail.
    destruct outcome; trace_cases Hin; injection Hin as ->;
      match goal with
      | HV : Configurable.Validated _ _ _ _ _ _ _ _ _ _ |- _ =>
          destruct HV as [_ _ _ Hc _ Hd _]
      end;
      rewrite Hchain in Hc; injection Hc as <-;
      rewrite Hg in Hd; injection Hd as <-;
      try congruence.
    split; [congruence | done].
  - intros typedData account Hin Hfail.
    destruct outcome; trace_cases Hin; injection Hin as -> ->;
      try (unfold Configurable.signer in *; congruence).
    split; [unfold Configurable.signer in *; congruence|].
    unfold Configurable.trace_sign. by rewrite last_snoc.
  - intros contract functionName a Hin Hfail.
    destruct outcome; trace_cases Hin; injection Hin as -> -> ->;
      try congruence.
    split; [congruence|].
    unfold Configurable.trace_hooks. by rewrite last_snoc.
  - intros params values Hin Hfail.
    destruct outcome; trace_cases Hin; injection Hin as -> ->;
      try congruence.
    split; [congruence|].
    unfold Configurable.trace_compose. by rewrite last_snoc.
  - intros c serializer tx sg Hchain Hser Hin.
    destruct outcome; trace_cases Hin; injection Hin as -> ->;
      match goal with
      | HV : Configurable.Validated _ _ _ _ _ _ _ _ _ _ |- _ =>
          destruct HV as [_ _ _ Hc _ _ Hs]
      end;
      rewrite Hchain in Hc; injection Hc as <-;
      rewrite Hser in Hs; injection Hs as <-;
      (split; [done | by rewrite last_snoc]).
Qed.

(** X5. A successful call made each of its calls once, in this order:
    chain-id read, domain derivation, signing, then in delegated mode the
    hook read at the client's account and the encoding, and last the
    serializer.  Direct mode makes neither a hook read nor an encoder
    call. *)
Theorem successful_trace (out : Hex) :
  run.1 = Ok out →
  ∃ domainTx typedData serializerTx,
    if useSignerAddress
    then run.2 =
         [EvGetChainId; EvGetEip712Domain domainTx;
          EvSignTypedData typedData (wallet_account signerClient);
          EvSerializeTransaction serializerTx zero_signature]
    else ∃ clientAccount rawSignature hookData,
         client_account client = Some clientAccount ∧
         run.2 =
         [EvGetChainId; EvGetEip712Domain domainTx;
          EvSignTypedData typedData (wallet_account signerClient);
          EvReadContract (address clientAccount) "listHooks" [JBool true];
          EvEncodeAbiParameters abi_params
            [AHex rawSignature; AHex validator; AArr hookData];
          EvSerializeTransaction serializerTx zero_signature].
Proof.
  intros Hok.
  destruct outcome as
    [ | | | | | | | | | |
    | t acc c g ser td raw HV Hid Hdom Hsig Hmode
    | | |
    | t acc c g ser td raw cl hooks sig HV Hid Hdom Hsig Hmode Hcl Hhooks
        Henc];
    try discriminate Hok; rewrite Hmode.
  - by do 3 eexists.
  - do 3 eexists. exists cl. by do 2 eexists.
Qed.

(** X6. Whatever the outcome, the calls of a run are in pipeline order
    and none is made twice: the steps of the trace increase strictly. *)
Theorem calls_in_pipeline_order :
  StronglySorted lt (event_step <$> run.2).
Proof.
  destruct outcome;
    unfold Configurable.trace_compose, Configurable.trace_hooks,
      Configurable.trace_sign, Configurable.trace_domain,
      Configurable.serialize_event; simpl;
    repeat (constructor; [|repeat constructor; lia]); constructor.
Qed.

(** X7. Direct mode uses neither the validator, nor the hook payload
    map, nor the hook registry: a call with other values for them, on a
    world that answers the chain-id read and the signer alike, gives the
    same result and the same trace. *)
Theorem direct_mode_ignores_delegation_inputs (validator' : Address)
    (validationHookData' : gmap string Hex) (w' : World) :
  useSignerAddress = true →
  rpc_getChainId w' = rpc_getChainId w →
  signer_signTypedData w' = signer_signTypedData w →
  Configurable.run VALID_CHAINS transformHexValues assertEip712Request
    encodeAbiParameters client signerClient args validator' useSignerAddress
    validationHookData' w' = run.
Proof.
  intros -> Hid Hsigner.
  destruct w as [live hooks sign], w' as [live' hooks' sign'].
  simpl in Hid, Hsigner. subst live' sign'.
  lockstep.
Qed.

(** X8. Payloads for hooks that are not enabled are ignored: two payload
    maps that agree on every hook of the live hook list give the same
    result and the same trace. *)
Theorem unlisted_hook_payloads_ignored
    (validationHookData' : gmap string Hex) :
  (∀ clientAccount validationHooks,
     client_account client = Some clientAccount →
     rpc_readContract w (address clientAccount) "listHooks" [JBool true]
       = Ok validationHooks →
     ∀ hook, hook ∈ validationHooks →
       validationHookData' !! hook = validationHookData !! hook) →
  Configurable.run VALID_CHAINS transformHexValues assertEip712Request
    encodeAbiParameters client signerClient args validator useSignerAddress
    validationHookData' w = run.
Proof.
  intros Hagree. lockstep.
  all: match goal with
       | Hr : rpc_readContract w (address ?cl) _ _ = Ok ?hooks |- _ =>
           rewrite (collectHookData_agree validationHookData'
                      validationHookData hooks
                      (Hagree cl hooks eq_refl Hr))
       end.
  all: by destruct (encodeAbiParameters _ _).
Qed.

(** X9. Only the signer client's account signs, in either mode, and
    what it signs is the typed data the chain's [getEip712Domain]
    returned for the request of the same call. *)
Theorem signing_account (typedData : Obj) (account : Account) :
  EvSignTypedData typedData account ∈ run.2 →
  account = wallet_account signerClient ∧
  ∃ c getEip712Domain domainTx,
    chain = Value c ∧
    custom_getEip712Domain c = Some getEip712Domain ∧
    EvGetEip712Domain domainTx ∈ run.2 ∧
    getEip712Domain domainTx = Ok typedData.
Proof.
  intros Hin.
  destruct outcome; trace_cases Hin; injection Hin as -> ->;
    (split; [done|]);
    match goal with
    | HV : Configurable.Validated _ _ _ _ _ _ _ _ _ _ |- _ =>
        destruct HV as [_ _ _ Hc _ Hd _]
    end;
    do 3 eexists; (split_and!; [done | done | trace_member | done]).
Qed.

(** X10. The object from which the domain is derived carries the live
    chain id and the type ['eip712'] whatever the request says for these
    two keys, and apart from [type], [from] and [chainId] it is the
    request as normalized at entry. *)
Theorem domain_request_fields (tx : Obj) :
  EvGetEip712Domain tx ∈ run.2 →
  (∃ live, rpc_getChainId w = Ok live ∧
           tx !! "chainId" = Some (JNumber live)) ∧
  tx !! "type" = Some (JString "eip712") ∧
  ∃ transaction,
    normalized = Ok transaction ∧
    ∀ k, k ∉ ["type"; "from"; "chainId"] → tx !! k = transaction !! k.
Proof.
  intros Hin.
  assert (∃ live transaction acc,
            rpc_getChainId w = Ok live ∧
            normalized = Ok transaction ∧
            tx = domainRequest transaction live
                   (fromAccount (parseAccount acc)))
    as (live & transaction & acc & Hid & Hnorm & ->).
  { destruct outcome; trace_cases Hin; injection Hin as ->;
      match goal with
      | HV : Configurable.Validated _ _ _ _ _ _ _ _ _ _ |- _ =>
          destruct HV as [Hn _ _ _ _ _ _]
      end; eauto 6. }
  split_and!.
  - exists live. split; [done | apply domainRequest_chainId].
  - unfold domainRequest. by rewrite lookup_insert_eq.
  - exists transaction. split; [done|].
    intros k. rewrite !not_elem_of_cons. intros (Ht & Hf & Hc & _).
    unfold domainRequest. by rewrite !lookup_insert_ne by congruence.
Qed.

(** X11. A call succeeds only on a validated binding: the entry
    conversion returned, an account resolved, the request assertion
    accepted the normalized request, the declared chain is in
    [VALID_CHAINS] and has both capabilities, and the live chain id is
    the declared chain's id. *)
Theorem success_requires_validation (out : Hex) :
  run.1 = Ok out →
  ∃ transaction acc c,
    normalized = Ok transaction ∧
    account_truthy account_ = Some acc ∧
    assertEip712Request (parseAccount acc) chain transaction = Ok tt ∧
    chain = Value c ∧
    is_Some (VALID_CHAINS !! id c) ∧
    is_Some (custom_getEip712Domain c) ∧
    is_Some (serializers_transaction c) ∧
    rpc_getChainId w = Ok (id c).
Proof.
  intros Hok.
  destruct outcome; try discriminate Hok;
    match goal with
    | HV : Configurable.Validated _ _ _ _ _ _ _ _ _ _ |- _ =>
        destruct HV as [Hn Ha Hq Hc Hv Hd Hs]
    end;
    exists t, acc, c;
    (split_and!; [done | done | done | done | | by eexists
                 | by eexists | done]);
    by destruct (VALID_CHAINS !! id c) eqn:?; [eexists|].
Qed.

(** X12. When the normalized request carries no chain id of its own,
    the serializer receives the live chain id, and it is the declared
    chain's id. *)
Theorem serializer_chain_id_live (transaction tx : Obj) (sg : Signature) :
  normalized = Ok transaction →
  transaction !! "chainId" = None →
  EvSerializeTransaction tx sg ∈ run.2 →
  ∃ c, chain = Value c ∧
       rpc_getChainId w = Ok (id c) ∧
       tx !! "chainId" = Some (JNumber (id c)).
Proof.
  intros Hnorm Hnone Hin.
  destruct outcome; trace_cases Hin; injection Hin as -> ->;
    match goal with
    | HV : Configurable.Validated _ _ _ _ _ _ _ _ _ _ |- _ =>
        destruct HV as [Hn _ _ Hc _ _ _]
    end;
    rewrite Hnorm in Hn; injection Hn as <-;
    exists c; (split_and!; [done | done |]);
    rewrite serializerRequest_chainId; by rewrite Hnone.
Qed.

End ConfigurableCoverage.

(** ** The restricted action, further *)

Section RestrictedCoverage.

Variable BigInt : JsValue → Result Z.
Variable assertEip712Request :
  Account → Nullable ChainEIP712 → Obj → Result unit.
Variable encodeAbiParameters : list string → list AbiArg → Result Hex.

Variables (client : Client) (signerClient : WalletClient)
          (args : SignEip712TransactionParameters) (validatorAddress : Hex)
          (useSignerAddress : bool) (w : World).

Local Abbreviation run :=
  (Restricted.run BigInt assertEip712Request encodeAbiParameters client
     signerClient args validatorAddress useSignerAddress w).
Local Abbreviation outcome :=
  (restricted_run_outcome BigInt assertEip712Request encodeAbiParameters
     client signerClient args validatorAddress useSignerAddress w).
Local Abbreviation account_ := (Restricted.account_ client args).
Local Abbreviation chain := (Restricted.chain client args).

(** X13. The entry block of the restricted action.  After it the
    request has type ['eip712'] and a bigint [value]: zero when the
    given value is missing or falsy (the conversion is then not
    consulted), the converted value otherwise; every other field is
    untouched.  It fails only when the value is truthy and [BigInt]
    rejects it. *)
Theorem restricted_value_normalization (tx : Obj) :
  (∀ t, Restricted.normalize BigInt tx = Ok t →
     t !! "type" = Some (JString "eip712") ∧
     (∃ n, t !! "value" = Some (JBigInt n) ∧
           if js_truthy (tx !! "value")
           then ∃ given, tx !! "value" = Some given ∧ BigInt given = Ok n
           else n = 0) ∧
     ∀ k, k ≠ "type" → k ≠ "value" → t !! k = tx !! k) ∧
  (∀ e, Restricted.normalize BigInt tx = Err e →
     ∃ given, tx !! "value" = Some given ∧
              js_truthy (Some given) = true ∧
              BigInt given = Err e).
Proof.
  unfold Restricted.normalize.
  rewrite (lookup_insert_ne tx "type" "value") by done.
  destruct (js_truthy (tx !! "value")) eqn:Htruthy.
  - destruct (tx !! "value") as [given|] eqn:Hgiven; [|discriminate].
    simpl. split.
    + intros t Ht.
      destruct (BigInt given) as [n|e] eqn:Hn; [|discriminate].
      injection Ht as <-. split_and!.
      * by rewrite lookup_insert_ne, lookup_insert_eq.
      * exists n. rewrite lookup_insert_eq. split; [done|]. by exists given.
      * intros k Htype Hvalue. by rewrite !lookup_insert_ne.
    + intros e He. exists given.
      destruct (BigInt given); [discriminate|]. by injection He as <-.
  - split; [|discriminate].
    intros t [= <-]. split_and!.
    + by rewrite lookup_insert_ne, lookup_insert_eq.
    + exists 0. by rewrite lookup_insert_eq.
    + intros k Htype Hvalue. by rewrite !lookup_insert_ne.
Qed.

(** X14. The order of the first checks of the restricted action: a
    value that [BigInt] rejects ends the call with the conversion error
    before the account guard; then a missing account ends it with the
    account-not-found error before the request assertion; then a
    rejected request ends it with the assertion's error.  None of these
    makes any call. *)
Theorem restricted_entry_checks :
  (∀ e, Restricted.normalize BigInt (args_transaction args) = Err e →
     run = (Err e, [])) ∧
  (∀ t, Restricted.normalize BigInt (args_transaction args) = Ok t →
     account_truthy account_ = None →
     run = (Err (AccountNotFoundError "/docs/actions/wallet/signTransaction"),
            [])) ∧
  (∀ t acc e,
     Restricted.normalize BigInt (args_transaction args) = Ok t →
     account_truthy account_ = Some acc →
     assertEip712Request (parseAccount acc) chain t = Err e →
     run = (Err e, [])).
Proof.
  split_and!.
  - intros e Hn. rewrite (surjective_pairing run).
    destruct outcome;
      try match goal with
          | HV : Restricted.Validated _ _ _ _ _ _ _ _ _ |- _ =>
              destruct HV as [? ? ? ? ? ? ?]
          end; congruence.
  - intros t Hn Ha. rewrite (surjective_pairing run).
    destruct outcome;
      try match goal with
          | HV : Restricted.Validated _ _ _ _ _ _ _ _ _ |- _ =>
              destruct HV as [? ? ? ? ? ? ?]
          end; congruence.
  - intros t acc e Hn Ha Hq. rewrite (surjective_pairing run).
    destruct outcome;
      try match goal with
          | HV : Restricted.Validated _ _ _ _ _ _ _ _ _ |- _ =>
              destruct HV as [? ? ? ? ? ? ?]
          end; congruence.
Qed.

(** X15. The restricted action succeeds only on the test network: the
    declared chain's id and the live chain id are both 11124.  A
    successful call made the chain-id read, the domain derivation and the
    signing once each, then in delegated mode one encoder call on (raw
    signature, validator, empty list), then the serializer, whose request
    carries the raw signature (direct) or the encoding (delegated) as
    custom signature. *)
Theorem restricted_success (out : Hex) :
  run.1 = Ok out →
  ∃ c serializer domainTx typedData rawSignature serializerTx signature,
    chain = Value c ∧
    id c = 11124 ∧
    rpc_getChainId w = Ok 11124 ∧
    serializers_transaction c = Some serializer ∧
    signer_signTypedData w typedData (wallet_account signerClient)
      = Ok rawSignature ∧
    serializer serializerTx zero_signature = Ok out ∧
    serializerTx !! "customSignature" = Some (JString signature) ∧
    if useSignerAddress
    then signature = rawSignature ∧
         run.2 =
         [EvGetChainId; EvGetEip712Domain domainTx;
          EvSignTypedData typedData (wallet_account signerClient);
          EvSerializeTransaction serializerTx zero_signature]
    else encodeAbiParameters abi_params
           [AHex rawSignature; AHex validatorAddress; AArr []]
           = Ok signature ∧
         run.2 =
         [EvGetChainId; EvGetEip712Domain domainTx;
          EvSignTypedData typedData (wallet_account signerClient);
          EvEncodeAbiParameters abi_params
            [AHex rawSignature; AHex validatorAddress; AArr []];
          EvSerializeTransaction serializerTx zero_signature].
Proof.
  intros Hok.
  destruct outcome as
    [ | | | | | | | | | |
    | t acc c g ser td raw [Hn Ha Hq Hc Hal Hd Hs] Hid Hdom Hsig Hmode
    |
    | t acc c g ser td raw sig [Hn Ha Hq Hc Hal Hd Hs] Hid Hdom Hsig Hmode
        Henc ];
    try discriminate Hok;
    apply list_elem_of_singleton in Hal;
    unfold Restricted.abstractTestnet_id in Hal;
    rewrite Hal in Hid.
  - exists c, ser. do 2 eexists. exists raw. eexists. exists raw.
    split_and!; try done; [apply serializerRequest_customSignature|].
    rewrite Hmode. by split.
  - exists c, ser. do 2 eexists. exists raw. eexists. exists sig.
    split_and!; try done; [apply serializerRequest_customSignature|].
    rewrite Hmode. by split.
Qed.

(** X16. In the restricted action too, a live chain id that differs
    from the declared chain's id ends the call with the chain-mismatch
    error right after the read, and nothing is signed. *)
Theorem restricted_chain_mismatch (c : ChainEIP712) (live : Z) :
  chain = Value c →
  EvGetChainId ∈ run.2 →
  rpc_getChainId w = Ok live →
  live ≠ id c →
  run = (Err (ChainMismatchError (id c) live), [EvGetChainId]).
Proof.
  intros Hchain Hfetched Hlive Hne.
  rewrite (surjective_pairing run).
  destruct outcome;
    try (by apply elem_of_nil in Hfetched);
    match goal with
    | HV : Restricted.Validated _ _ _ _ _ _ _ _ _ |- _ =>
        destruct HV as [_ _ _ Hc _ _ _]
    end;
    rewrite Hchain in Hc; injection Hc as <-;
    congruence.
Qed.

(** X17. The calls of a run of the restricted action are in pipeline
    order, none twice, and there is never a contract read among them. *)
Theorem restricted_calls_in_pipeline_order :
  StronglySorted lt (event_step <$> run.2) ∧
  ∀ e, e ∈ run.2 → event_step e ≠ 3%nat.
Proof.
  split.
  - destruct outcome;
      unfold Restricted.trace_compose, Restricted.trace_sign,
        Restricted.trace_domain, Restricted.serialize_event; simpl;
      repeat (constructor; [|repeat constructor; lia]); constructor.
  - intros e Hin.
    destruct outcome; restricted_trace_cases Hin; by subst e.
Qed.

End RestrictedCoverage.

(** ** Both actions, further *)

Section BothCoverage.

Variable VALID_CHAINS : gmap Z ChainEIP712.
Variable transformHexValues : Obj → list string → Result Obj.
Variable BigInt : JsValue → Result Z.
Variable assertEip712Request :
  Account → Nullable ChainEIP712 → Obj → Result unit.
Variable encodeAbiParameters : list string → list AbiArg → Result Hex.

Variables (client : Client) (signerClient : WalletClient)
          (args : SignEip712TransactionParameters) (validator : Address)
          (validationHookData : gmap string Hex) (w : World).

Local Abbreviation configurable useSignerAddress :=
  (Configurable.run VALID_CHAINS transformHexValues assertEip712Request
     encodeAbiParameters client signerClient args validator useSignerAddress
     validationHookData w).
Local Abbreviation restricted useSignerAddress :=
  (Restricted.run BigInt assertEip712Request encodeAbiParameters client
     signerClient args validator useSignerAddress w).
Local Abbreviation chain := (Configurable.chain client args).

(** X18. In direct mode the two actions are the same call: when their
    entry blocks end alike (the same request, or the same error) and
    their allow-lists agree on the declared chain, they return the same
    result, failures included, after the same calls with the same
    arguments. *)
Theorem direct_mode_actions_agree :
  Configurable.normalize transformHexValues (args_transaction args)
    = Restricted.normalize BigInt (args_transaction args) →
  (∀ c, chain = Value c →
        VALID_CHAINS !! id c ≠ None ↔ id c ∈ Restricted.ALLOWED_CHAINS) →
  configurable true = restricted true.
Proof.
  intros Hnorm Hlists.
  unfold Configurable.run, Configurable.signTransaction, Restricted.run,
    Restricted.signTransaction, Configurable.chain in *.
  rewrite Hnorm. clear Hnorm.
  destruct (Restricted.normalize BigInt (args_transaction args)) as [t|e];
    [|lockstep].
  destruct (with_default (args_chain args) (client_chain client))
    as [| |c] eqn:Hchain.
  1, 2: lockstep.
  specialize (Hlists c eq_refl).
  destruct (decide (VALID_CHAINS !! id c = None)) as [Hnone|Hsome] eqn:Hvalid;
    destruct (bool_decide (id c ∈ Restricted.ALLOWED_CHAINS)) eqn:Hallowed;
    try (apply bool_decide_eq_true in Hallowed; tauto);
    try (apply bool_decide_eq_false in Hallowed; tauto);
    cbn [negb]; lockstep.
Qed.

(** X19. In delegated mode the two actions differ by the hook read
    alone: under the same agreement of entry blocks and allow-lists, when
    the account reports no validation hook the configurable action
    returns what the restricted action returns, failures included, and
    its calls are those of the restricted action plus the hook read. *)
Theorem delegated_actions_agree_without_hooks (clientAccount : Account) :
  Configurable.normalize transformHexValues (args_transaction args)
    = Restricted.normalize BigInt (args_transaction args) →
  (∀ c, chain = Value c →
        VALID_CHAINS !! id c ≠ None ↔ id c ∈ Restricted.ALLOWED_CHAINS) →
  client_account client = Some clientAccount →
  rpc_readContract w (address clientAccount) "listHooks" [JBool true]
    = Ok [] →
  (configurable false).1 = (restricted false).1 ∧
  filter (λ e, event_step e ≠ 3%nat) (configurable false).2
    = (restricted false).2.
Proof.
  intros Hnorm Hlists Hclient Hread.
  unfold Configurable.run, Configurable.signTransaction, Restricted.run,
    Restricted.signTransaction, Configurable.chain in *.
  rewrite Hnorm. clear Hnorm.
  destruct (Restricted.normalize BigInt (args_transaction args)) as [t|e];
    [|split; lockstep].
  destruct (with_default (args_chain args) (client_chain client))
    as [| |c] eqn:Hchain.
  1, 2: split; lockstep.
  specialize (Hlists c eq_refl).
  destruct (decide (VALID_CHAINS !! id c = None)) as [Hnone|Hsome] eqn:Hvalid;
    destruct (bool_decide (id c ∈ Restricted.ALLOWED_CHAINS)) eqn:Hallowed;
    try (apply bool_decide_eq_true in Hallowed; tauto);
    try (apply bool_decide_eq_false in Hallowed; tauto);
    cbn [negb]; split; lockstep.
  all: change (collectHookData validationHookData []) with (@nil Hex).
  all: lockstep.
Qed.

End BothCoverage.

(** ** The further properties at concrete calls *)

(** X1 at a client without account, with arguments that name none: on
    the sample transfer the account guard fires, and on a request whose
    value is ['0x'] the entry conversion fails first. *)
Lemma account_guard_witness :
  ((Sample.configurable Sample.bare_client (Sample.args Sample.transfer)
      false (Sample.world 11124 [])).2 = [] ∧
   (Sample.configurable Sample.bare_client (Sample.args Sample.transfer)
      false (Sample.world 11124 [])).1
   = Err (AccountNotFoundError "/docs/actions/wallet/signTransaction")) ∧
  ((Sample.configurable Sample.bare_client
      (Sample.args {[ "value" := JString "0x" ]}) false
      (Sample.world 11124 [])).2 = [] ∧
   (Sample.configurable Sample.bare_client
      (Sample.args {[ "value" := JString "0x" ]}) false
      (Sample.world 11124 [])).1
   = Err (CollaboratorError "SyntaxError")).
Proof.
  split.
  - destruct (proj2 (account_guard Sample.VALID_CHAINS
                       Sample.transformHexValues Sample.assertEip712Request
                       Sample.encodeAbiParameters Sample.bare_client
                       Sample.signerClient (Sample.args Sample.transfer)
                       Sample.validator false Sample.hookPayloads
                       (Sample.world 11124 [])) eq_refl)
      as (Htrace & _ & Hguard).
    split; [exact Htrace|].
    apply (Hguard (<["value" := JBigInt 42]>
                     (<["type" := JString "eip712"]> Sample.transfer))).
    vm_compute. reflexivity.
  - destruct (proj2 (account_guard Sample.VALID_CHAINS
                       Sample.transformHexValues Sample.assertEip712Request
                       Sample.encodeAbiParameters Sample.bare_client
                       Sample.signerClient
                       (Sample.args {[ "value" := JString "0x" ]})
                       Sample.validator false Sample.hookPayloads
                       (Sample.world 11124 [])) eq_refl)
      as (Htrace & Hconversion & _).
    split; [exact Htrace|].
    apply Hconversion. vm_compute. reflexivity.
Defined.

(** X2 at the sample client, whose chain is supported, with
    [chain: null] in the arguments. *)
Lemma args_chain_precedence_witness :
  (Sample.configurable Sample.client
     {| args_account := Undefined; args_chain := Null;
        args_transaction := Sample.transfer |}
     false (Sample.world 11124 [])).2 = [] ∧
  ∃ e,
    (Sample.configurable Sample.client
       {| args_account := Undefined; args_chain := Null;
          args_transaction := Sample.transfer |}
       false (Sample.world 11124 [])).1 = Err e.
Proof.
  apply (proj2 (args_chain_precedence Sample.VALID_CHAINS
                  Sample.transformHexValues Sample.assertEip712Request
                  Sample.encodeAbiParameters Sample.client
                  Sample.signerClient
                  {| args_account := Undefined; args_chain := Null;
                     args_transaction := Sample.transfer |}
                  Sample.validator false Sample.hookPayloads
                  (Sample.world 11124 []))).
  reflexivity.
Defined.

(** X3 at a delegated call whose arguments name another account (the
    recipient's address): the hook read still goes to the client's
    account. *)
Lemma hook_read_target_witness :
  EvReadContract (address Sample.smartAccount) "listHooks" [JBool true]
    ∈ (Sample.configurable Sample.client
         {| args_account := Value (OfAddress Sample.recipient);
            args_chain := Undefined;
            args_transaction := Sample.transfer |}
         false (Sample.world 11124 [Sample.hookA; Sample.hookB])).2 ∧
  ∃ clientAccount,
    client_account Sample.client = Some clientAccount ∧
    address Sample.smartAccount = address clientAccount.
Proof.
  assert (EvReadContract (address Sample.smartAccount) "listHooks"
            [JBool true]
            ∈ (Sample.configurable Sample.client
                 {| args_account := Value (OfAddress Sample.recipient);
                    args_chain := Undefined;
                    args_transaction := Sample.transfer |}
                 false (Sample.world 11124 [Sample.hookA; Sample.hookB])).2)
    as Hin by in_computed_trace.
  split; [exact Hin|].
  destruct (hook_read_target Sample.VALID_CHAINS Sample.transformHexValues
              Sample.assertEip712Request Sample.encodeAbiParameters
              Sample.client Sample.signerClient
              {| args_account := Value (OfAddress Sample.recipient);
                 args_chain := Undefined;
                 args_transaction := Sample.transfer |}
              Sample.validator false Sample.hookPayloads
              (Sample.world 11124 [Sample.hookA; Sample.hookB])
              _ _ _ Hin)
    as (_ & _ & _ & Htarget).
  exact Htarget.
Defined.

(** X4 at a delegated call whose hook read fails: the read's error is
    the result and the read is the last call. *)
Lemma first_failure_aborts_witness :
  (Configurable.run Sample.VALID_CHAINS Sample.transformHexValues
     Sample.assertEip712Request Sample.encodeAbiParameters Sample.client
     Sample.signerClient (Sample.args Sample.transfer) Sample.validator
     false Sample.hookPayloads
     {| rpc_getChainId := Ok 11124;
        rpc_readContract := λ _ _ _, Err (CollaboratorError "CallFailed");
        signer_signTypedData := λ _ _, Ok Sample.rawSignature |}).1
    = Err (CollaboratorError "CallFailed") ∧
  last
    (Configurable.run Sample.VALID_CHAINS Sample.transformHexValues
       Sample.assertEip712Request Sample.encodeAbiParameters Sample.client
       Sample.signerClient (Sample.args Sample.transfer) Sample.validator
       false Sample.hookPayloads
       {| rpc_getChainId := Ok 11124;
          rpc_readContract := λ _ _ _, Err (CollaboratorError "CallFailed");
          signer_signTypedData := λ _ _, Ok Sample.rawSignature |}).2
    = Some (EvReadContract (address Sample.smartAccount) "listHooks"
              [JBool true]).
Proof.
  destruct (first_failure_aborts Sample.VALID_CHAINS
              Sample.transformHexValues Sample.assertEip712Request
              Sample.encodeAbiParameters Sample.client Sample.signerClient
              (Sample.args Sample.transfer) Sample.validator false
              Sample.hookPayloads
              {| rpc_getChainId := Ok 11124;
                 rpc_readContract :=
                   λ _ _ _, Err (CollaboratorError "CallFailed");
                 signer_signTypedData := λ _ _, Ok Sample.rawSignature |}
              (CollaboratorError "CallFailed"))
    as (_ & _ & _ & Hread & _).
  apply (Hread (address Sample.smartAccount) "listHooks" [JBool true]).
  - in_computed_trace.
  - reflexivity.
Defined.

(** X5 at the sample delegated call. *)
Lemma successful_trace_witness :
  (Sample.configurable Sample.client (Sample.args Sample.transfer) false
     (Sample.world 11124 [Sample.hookA; Sample.hookB])).1
    = Ok Sample.delegated_signature ∧
  ∃ domainTx typedData serializerTx clientAccount rawSignature hookData,
    client_account Sample.client = Some clientAccount ∧
    (Sample.configurable Sample.client (Sample.args Sample.transfer) false
       (Sample.world 11124 [Sample.hookA; Sample.hookB])).2 =
    [EvGetChainId; EvGetEip712Domain domainTx;
     EvSignTypedData typedData Sample.sessionSigner;
     EvReadContract (address clientAccount) "listHooks" [JBool true];
     EvEncodeAbiParameters abi_params
       [AHex rawSignature; AHex Sample.validator; AArr hookData];
     EvSerializeTransaction serializerTx zero_signature].
Proof.
  assert ((Sample.configurable Sample.client (Sample.args Sample.transfer)
             false (Sample.world 11124 [Sample.hookA; Sample.hookB])).1
            = Ok Sample.delegated_signature) as Hok by (vm_compute; reflexivity).
  split; [exact Hok|].
  destruct (successful_trace Sample.VALID_CHAINS Sample.transformHexValues
              Sample.assertEip712Request Sample.encodeAbiParameters
              Sample.client Sample.signerClient (Sample.args Sample.transfer)
              Sample.validator false Sample.hookPayloads
              (Sample.world 11124 [Sample.hookA; Sample.hookB])
              Sample.delegated_signature Hok)
    as (domainTx & typedData & serializerTx & cl & raw & hookData & Hcl
        & Htrace).
  exists domainTx, typedData, serializerTx, cl, raw, hookData.
  split; [exact Hcl | exact Htrace].
Defined.

(** X7 at the sample direct call, against a call with another validator,
    no payloads and an empty hook registry. *)
Lemma direct_mode_ignores_delegation_inputs_witness :
  Configurable.run Sample.VALID_CHAINS Sample.transformHexValues
    Sample.assertEip712Request Sample.encodeAbiParameters Sample.client
    Sample.signerClient (Sample.args Sample.transfer) Sample.hookA true ∅
    (Sample.world 11124 [])
  = Sample.configurable Sample.client (Sample.args Sample.transfer) true
      (Sample.world 11124 [Sample.hookA; Sample.hookB]).
Proof.
  apply (direct_mode_ignores_delegation_inputs Sample.VALID_CHAINS
           Sample.transformHexValues Sample.assertEip712Request
           Sample.encodeAbiParameters Sample.client Sample.signerClient
           (Sample.args Sample.transfer) Sample.validator true
           Sample.hookPayloads
           (Sample.world 11124 [Sample.hookA; Sample.hookB])
           Sample.hookA ∅ (Sample.world 11124 []));
    reflexivity.
Defined.

(** X8 at the sample delegated call, against a payload map that has one
    more entry, for an address that is not an enabled hook. *)
Lemma unlisted_hook_payloads_ignored_witness :
  Configurable.run Sample.VALID_CHAINS Sample.transformHexValues
    Sample.assertEip712Request Sample.encodeAbiParameters Sample.client
    Sample.signerClient (Sample.args Sample.transfer) Sample.validator false
    (<[Sample.recipient := "0xff"]> Sample.hookPayloads)
    (Sample.world 11124 [Sample.hookA; Sample.hookB])
  = Sample.configurable Sample.client (Sample.args Sample.transfer) false
      (Sample.world 11124 [Sample.hookA; Sample.hookB]).
Proof.
  apply (unlisted_hook_payloads_ignored Sample.VALID_CHAINS
           Sample.transformHexValues Sample.assertEip712Request
           Sample.encodeAbiParameters Sample.client Sample.signerClient
           (Sample.args Sample.transfer) Sample.validator false
           Sample.hookPayloads
           (Sample.world 11124 [Sample.hookA; Sample.hookB])
           (<[Sample.recipient := "0xff"]> Sample.hookPayloads)).
  intros clientAccount validationHooks _ Hread hook Hin.
  injection Hread as <-.
  rewrite !elem_of_cons, elem_of_nil in Hin.
  destruct Hin as [->|[->|[]]]; vm_compute; reflexivity.
Defined.

(** X9 at the sample direct call: the session signer signs. *)
Lemma signing_account_witness :
  ∃ typedData,
    EvSignTypedData typedData Sample.sessionSigner
      ∈ (Sample.configurable Sample.client (Sample.args Sample.transfer) true
           (Sample.world 11124 [Sample.hookA; Sample.hookB])).2 ∧
    ∃ domainTx,
      EvGetEip712Domain domainTx
        ∈ (Sample.configurable Sample.client (Sample.args Sample.transfer)
             true (Sample.world 11124 [Sample.hookA; Sample.hookB])).2 ∧
      Sample.getEip712Domain domainTx = Ok typedData.
Proof.
  assert (∃ typedData,
            EvSignTypedData typedData Sample.sessionSigner
              ∈ (Sample.configurable Sample.client
                   (Sample.args Sample.transfer) true
                   (Sample.world 11124 [Sample.hookA; Sample.hookB])).2)
    as [typedData Hin].
  { exists (match Sample.getEip712Domain
                   (domainRequest (Sample.normalized Sample.transfer) 11124
                      Sample.sessionSigner)
            with
            | Ok typedData => typedData
            | Err _ => ∅
            end).
    in_computed_trace. }
  exists typedData. split; [exact Hin|].
  destruct (signing_account Sample.VALID_CHAINS Sample.transformHexValues
              Sample.assertEip712Request Sample.encodeAbiParameters
              Sample.client Sample.signerClient (Sample.args Sample.transfer)
              Sample.validator true Sample.hookPayloads
              (Sample.world 11124 [Sample.hookA; Sample.hookB])
              typedData Sample.sessionSigner Hin)
    as (_ & c & g & domainTx & Hchain & Hg & Hdomain & Htyped).
  injection Hchain as <-. injection Hg as <-.
  exists domainTx. split; [exact Hdomain | exact Htyped].
Defined.

(** X10 at a request that says [chainId = 1] on a chain whose live id is
    11124: the domain is derived with 11124. *)
Lemma domain_request_fields_witness :
  EvGetEip712Domain Sample.signed_request_with_chain_id
    ∈ (Sample.configurable Sample.client
         (Sample.args Sample.transfer_with_chain_id) false
         (Sample.world 11124 [Sample.hookA; Sample.hookB])).2 ∧
  (∃ live,
     rpc_getChainId (Sample.world 11124 [Sample.hookA; Sample.hookB])
       = Ok live ∧
     Sample.signed_request_with_chain_id !! "chainId"
       = Some (JNumber live)) ∧
  Sample.signed_request_with_chain_id !! "type" = Some (JString "eip712").
Proof.
  assert (EvGetEip712Domain Sample.signed_request_with_chain_id
            ∈ (Sample.configurable Sample.client
                 (Sample.args Sample.transfer_with_chain_id) false
                 (Sample.world 11124 [Sample.hookA; Sample.hookB])).2)
    as Hin by in_computed_trace.
  split; [exact Hin|].
  destruct (domain_request_fields Sample.VALID_CHAINS
              Sample.transformHexValues Sample.assertEip712Request
              Sample.encodeAbiParameters Sample.client Sample.signerClient
              (Sample.args Sample.transfer_with_chain_id) Sample.validator
              false Sample.hookPayloads
              (Sample.world 11124 [Sample.hookA; Sample.hookB])
              Sample.signed_request_with_chain_id Hin)
    as (Hlive & Htype & _).
  split; [exact Hlive | exact Htype].
Defined.

(** X11 at the sample delegated call. *)
Lemma success_requires_validation_witness :
  (Sample.configurable Sample.client (Sample.args Sample.transfer) false
     (Sample.world 11124 [Sample.hookA; Sample.hookB])).1
    = Ok Sample.delegated_signature ∧
  ∃ c,
    Configurable.chain Sample.client (Sample.args Sample.transfer)
      = Value c ∧
    is_Some (Sample.VALID_CHAINS !! id c) ∧
    rpc_getChainId (Sample.world 11124 [Sample.hookA; Sample.hookB])
      = Ok (id c).
Proof.
  assert ((Sample.configurable Sample.client (Sample.args Sample.transfer)
             false (Sample.world 11124 [Sample.hookA; Sample.hookB])).1
            = Ok Sample.delegated_signature) as Hok by (vm_compute; reflexivity).
  split; [exact Hok|].
  destruct (success_requires_validation Sample.VALID_CHAINS
              Sample.transformHexValues Sample.assertEip712Request
              Sample.encodeAbiParameters Sample.client Sample.signerClient
              (Sample.args Sample.transfer) Sample.validator false
              Sample.hookPayloads
              (Sample.world 11124 [Sample.hookA; Sample.hookB])
              Sample.delegated_signature Hok)
    as (transaction & acc & c & _ & _ & _ & Hchain & Hvalid & _ & _ & Hid).
  exists c. split_and!; [exact Hchain | exact Hvalid | exact Hid].
Defined.

(** X12 at the sample delegated call, whose request has no chain id. *)
Lemma serializer_chain_id_live_witness :
  Configurable.normalize Sample.transformHexValues Sample.transfer
    = Ok (Sample.normalized Sample.transfer) ∧
  Sample.normalized Sample.transfer !! "chainId" = None ∧
  EvSerializeTransaction Sample.delegated_request zero_signature
    ∈ (Sample.configurable Sample.client (Sample.args Sample.transfer) false
         (Sample.world 11124 [Sample.hookA; Sample.hookB])).2 ∧
  Sample.delegated_request !! "chainId" = Some (JNumber 11124).
Proof.
  assert (Configurable.normalize Sample.transformHexValues Sample.transfer
            = Ok (Sample.normalized Sample.transfer)) as Hnorm
    by (vm_compute; reflexivity).
  assert (Sample.normalized Sample.transfer !! "chainId" = None) as Hnone
    by (vm_compute; reflexivity).
  assert (EvSerializeTransaction Sample.delegated_request zero_signature
            ∈ (Sample.configurable Sample.client (Sample.args Sample.transfer)
                 false (Sample.world 11124 [Sample.hookA; Sample.hookB])).2)
    as Hin by in_computed_trace.
  split_and!; [exact Hnorm | exact Hnone | exact Hin |].
  destruct (serializer_chain_id_live Sample.VALID_CHAINS
              Sample.transformHexValues Sample.assertEip712Request
              Sample.encodeAbiParameters Sample.client Sample.signerClient
              (Sample.args Sample.transfer) Sample.validator false
              Sample.hookPayloads
              (Sample.world 11124 [Sample.hookA; Sample.hookB])
              (Sample.normalized Sample.transfer)
              Sample.delegated_request zero_signature Hnorm Hnone Hin)
    as (c & Hchain & _ & Hfield).
  injection Hchain as <-. exact Hfield.
Defined.

(** X13 at the sample transfer, whose value is the hex string [0x2a]. *)
Lemma restricted_value_normalization_witness :
  ∃ t n,
    Restricted.normalize Sample.BigInt Sample.transfer = Ok t ∧
    t !! "value" = Some (JBigInt n) ∧
    t !! "to" = Sample.transfer !! "to".
Proof.
  assert (∃ t, Restricted.normalize Sample.BigInt Sample.transfer = Ok t)
    as [t Ht] by (eexists; reflexivity).
  destruct (proj1 (restricted_value_normalization Sample.BigInt
                     Sample.transfer) t Ht)
    as (_ & (n & Hvalue & _) & Hframe).
  exists t, n. split_and!; [exact Ht | exact Hvalue | by apply Hframe].
Defined.

(** X14 at a call with a value that is no number, on a client without
    account: the conversion error comes first. *)
Lemma restricted_entry_checks_witness :
  Sample.restricted Sample.bare_client
    (Sample.args {[ "value" := JString "0xzz" ]}) false
    (Sample.world 11124 [])
  = (Err (CollaboratorError "SyntaxError"), []).
Proof.
  apply (proj1 (restricted_entry_checks Sample.BigInt
                  Sample.assertEip712Request Sample.encodeAbiParameters
                  Sample.bare_client Sample.signerClient
                  (Sample.args {[ "value" := JString "0xzz" ]})
                  Sample.validator false (Sample.world 11124 []))).
  vm_compute. reflexivity.
Defined.

(** X15 at the sample delegated call of the restricted action. *)
Lemma restricted_success_witness :
  (Sample.restricted Sample.client (Sample.args Sample.transfer) false
     (Sample.world 11124 [Sample.hookA; Sample.hookB])).1
    = Ok Sample.hookless_signature ∧
  ∃ c,
    Restricted.chain Sample.client (Sample.args Sample.transfer) = Value c ∧
    id c = 11124 ∧
    rpc_getChainId (Sample.world 11124 [Sample.hookA; Sample.hookB])
      = Ok 11124.
Proof.
  assert ((Sample.restricted Sample.client (Sample.args Sample.transfer)
             false (Sample.world 11124 [Sample.hookA; Sample.hookB])).1
            = Ok Sample.hookless_signature) as Hok by (vm_compute; reflexivity).
  split; [exact Hok|].
  destruct (restricted_success Sample.BigInt Sample.assertEip712Request
              Sample.encodeAbiParameters Sample.client Sample.signerClient
              (Sample.args Sample.transfer) Sample.validator false
              (Sample.world 11124 [Sample.hookA; Sample.hookB])
              Sample.hookless_signature Hok)
    as (c & _ & _ & _ & _ & _ & _ & Hchain & Hid & Hlive & _).
  exists c. split_and!; [exact Hchain | exact Hid | exact Hlive].
Defined.

(** X16 at a call of the restricted action whose live chain id is 1. *)
Lemma restricted_chain_mismatch_witness :
  Sample.restricted Sample.client (Sample.args Sample.transfer) false
    (Sample.world 1 [])
  = (Err (ChainMismatchError 11124 1), [EvGetChainId]).
Proof.
  apply (restricted_chain_mismatch Sample.BigInt Sample.assertEip712Request
           Sample.encodeAbiParameters Sample.client Sample.signerClient
           (Sample.args Sample.transfer) Sample.validator false
           (Sample.world 1 []) Sample.abstractTestnet 1).
  - reflexivity.
  - in_computed_trace.
  - reflexivity.
  - by vm_compute.
Defined.

(** X18 at the sample direct call. *)
Lemma direct_mode_actions_agree_witness :
  Sample.configurable Sample.client (Sample.args Sample.transfer) true
    (Sample.world 11124 [Sample.hookA; Sample.hookB])
  = Sample.restricted Sample.client (Sample.args Sample.transfer) true
      (Sample.world 11124 [Sample.hookA; Sample.hookB]).
Proof.
  apply (direct_mode_actions_agree Sample.VALID_CHAINS
           Sample.transformHexValues Sample.BigInt
           Sample.assertEip712Request Sample.encodeAbiParameters
           Sample.client Sample.signerClient (Sample.args Sample.transfer)
           Sample.validator Sample.hookPayloads
           (Sample.world 11124 [Sample.hookA; Sample.hookB])).
  - vm_compute. reflexivity.
  - intros c Hchain.
    change (Value Sample.abstractTestnet = Value c) in Hchain.
    injection Hchain as <-.
    split; intros _; [apply list_elem_of_here | by vm_compute].
Defined.

(** X19 at the sample delegated call on an account without hooks. *)
Lemma delegated_actions_agree_without_hooks_witness :
  (Sample.configurable Sample.client (Sample.args Sample.transfer) false
     (Sample.world 11124 [])).1
  = (Sample.restricted Sample.client (Sample.args Sample.transfer) false
       (Sample.world 11124 [])).1 ∧
  filter (λ e, event_step e ≠ 3%nat)
    (Sample.configurable Sample.client (Sample.args Sample.transfer) false
       (Sample.world 11124 [])).2
  = (Sample.restricted Sample.client (Sample.args Sample.transfer) false
       (Sample.world 11124 [])).2.
Proof.
  apply (delegated_actions_agree_without_hooks Sample.VALID_CHAINS
           Sample.transformHexValues Sample.BigInt
           Sample.assertEip712Request Sample.encodeAbiParameters
           Sample.client Sample.signerClient (Sample.args Sample.transfer)
           Sample.validator Sample.hookPayloads (Sample.world 11124 [])
           Sample.smartAccount).
  - vm_compute. reflexivity.
  - intros c Hchain.
    change (Value Sample.abstractTestnet = Value c) in Hchain.
    injection Hchain as <-.
    split; intros _; [apply list_elem_of_here | by vm_compute].
  - reflexivity.
  - reflexivity.
Defined.
